(** * calibre-library-ts: the exec layer, the error classifier and the add adapter

    A shallow embedding of [src/core/exec.ts], [src/core/errors.ts],
    [src/commands/add.ts] and of the earlier revision of the exec layer,
    together with the properties the specification states about them.

    Conventions of the model:
    - a JavaScript string is a [string] whose characters are read as the code
      units 0..255 (Latin-1); the case mapping, white space and line
      terminators below are the ECMAScript ones restricted to that range;
    - a JavaScript number that the code only ever uses as an integer (book
      ids, series index) is a [Z] or an [N], kept exact: the embedding and
      the code agree on the safe integers, up to 2^53 - 1 in absolute
      value, and a statement about the value of a number assumes that
      range;
    - an [async] function is a computation over the log of spawned child
      processes that settles as [Resolved] or [Rejected]. *)

From Stdlib Require Import Ascii String List Bool NArith ZArith Lia Permutation.
From Stdlib Require Import DecimalString DecimalPos DecimalN NArithRing.
Import ListNotations.

Open Scope list_scope.
Open Scope string_scope.

(** ** JavaScript strings *)

Module JsString.

Definition code (c : ascii) : N := N_of_ascii c.

Definition isAsciiUpper (c : ascii) : bool :=
  ((65 <=? code c) && (code c <=? 90))%N.

(** Upper-case letters of the Latin-1 supplement: U+00C0..U+00DE without
    the multiplication sign U+00D7. *)
Definition isLatin1Upper (c : ascii) : bool :=
  ((192 <=? code c) && (code c <=? 222) && negb (code c =? 215))%N.

(** [String.prototype.toLowerCase], one code unit. *)
Definition lowerChar (c : ascii) : ascii :=
  if isAsciiUpper c || isLatin1Upper c then ascii_of_N (code c + 32) else c.

Fixpoint toLowerCase (s : string) : string :=
  match s with
  | EmptyString => EmptyString
  | String c t => String (lowerChar c) (toLowerCase t)
  end.

(** [s.startsWith(sub)] *)
Fixpoint startsWith (sub s : string) : bool :=
  match sub, s with
  | EmptyString, _ => true
  | String _ _, EmptyString => false
  | String a sub', String b s' => Ascii.eqb a b && startsWith sub' s'
  end.

(** [s.includes(sub)] *)
Fixpoint includes (s sub : string) : bool :=
  startsWith sub s ||
  match s with
  | EmptyString => false
  | String _ t => includes t sub
  end.

(** Truthiness of a string: only the empty string is falsy. *)
Definition truthy (s : string) : bool :=
  match s with EmptyString => false | String _ _ => true end.

(** [a || b] on strings. *)
Definition orElse (a b : string) : string := if truthy a then a else b.

(** [\d] *)
Definition isDigit (c : ascii) : bool :=
  ((48 <=? code c) && (code c <=? 57))%N.

(** [\s]: TAB, LF, VT, FF, CR, SPACE and NBSP. *)
Definition isSpace (c : ascii) : bool :=
  ((9 <=? code c) && (code c <=? 13) || (code c =? 32) || (code c =? 160))%N.

(** Line terminators, the characters [.] does not match. *)
Definition isLineTerminator (c : ascii) : bool :=
  ((code c =? 10) || (code c =? 13))%N.

(** Two code units that a regular expression with the [i] flag identifies
    when the pattern character is an ASCII character: equal, or the same
    ASCII letter in the two cases. *)
Definition eqCharCI (a b : ascii) : bool :=
  Ascii.eqb a b
  || (isAsciiUpper a && (code a + 32 =? code b)%N)
  || (isAsciiUpper b && (code b + 32 =? code a)%N).

(** The literal [pat] matched at the start of [s]; returns the rest. *)
Fixpoint stripPrefix (pat s : string) : option string :=
  match pat, s with
  | EmptyString, _ => Some s
  | String _ _, EmptyString => None
  | String p pat', String c s' =>
      if Ascii.eqb p c then stripPrefix pat' s' else None
  end.

(** The pattern [pat], matched with the [i] flag at the start of [s];
    returns the rest of the input. *)
Fixpoint stripPrefixCI (pat s : string) : option string :=
  match pat, s with
  | EmptyString, _ => Some s
  | String _ _, EmptyString => None
  | String p pat', String c s' =>
      if eqCharCI p c then stripPrefixCI pat' s' else None
  end.

(** The longest prefix of [s] whose characters satisfy [p]. *)
Fixpoint takeWhile (p : ascii -> bool) (s : string) : string :=
  match s with
  | EmptyString => EmptyString
  | String c t => if p c then String c (takeWhile p t) else EmptyString
  end.

Fixpoint dropWhile (p : ascii -> bool) (s : string) : string :=
  match s with
  | EmptyString => EmptyString
  | String c t => if p c then dropWhile p t else s
  end.

(** A greedy [X+] group that ends the pattern: the longest non-empty run. *)
Definition plusRun (p : ascii -> bool) (s : string) : option string :=
  match takeWhile p s with
  | EmptyString => None
  | r => Some r
  end.

(** [s.match(re)] for a pattern without the [g] and [y] flags: the
    attempt [matchAt] is made at every position from left to right and
    the first success wins. *)
Fixpoint search {A : Type} (matchAt : string -> option A) (s : string)
  : option A :=
  match matchAt s with
  | Some r => Some r
  | None =>
      match s with
      | EmptyString => None
      | String _ t => search matchAt t
      end
  end.

(** Value of a run of decimal digits, most significant first. *)
Fixpoint digitsValue (acc : N) (s : string) : N :=
  match s with
  | EmptyString => acc
  | String c t => digitsValue (acc * 10 + (code c - 48))%N t
  end.

(** Spec-level occurrence of a phrase, ignoring ASCII case:
    [s = pre ++ mid ++ post] where [mid] is the phrase up to case. *)
Fixpoint eqIgnoreCase (a b : string) : bool :=
  match a, b with
  | EmptyString, EmptyString => true
  | String x a', String y b' => eqCharCI x y && eqIgnoreCase a' b'
  | _, _ => false
  end.

Definition containsIgnoreCase (s phrase : string) : Prop :=
  exists pre mid post,
    s = pre ++ mid ++ post /\ eqIgnoreCase mid phrase = true.

(** [s.trimStart()], [s.trimEnd()] and [s.trim()] *)
Definition trimStart (s : string) : string := dropWhile isSpace s.

Fixpoint trimEnd (s : string) : string :=
  match s with
  | EmptyString => EmptyString
  | String c t =>
      match trimEnd t with
      | EmptyString => if isSpace c then EmptyString else String c EmptyString
      | r => String c r
      end
  end.

Definition trim (s : string) : string := trimEnd (trimStart s).

(** [s.split(",")]: never empty, the pieces between the commas. *)
Fixpoint splitComma (s : string) : list string :=
  match s with
  | EmptyString => [EmptyString]
  | String c t =>
      if Ascii.eqb c "," then EmptyString :: splitComma t
      else match splitComma t with
           | piece :: rest => String c piece :: rest
           | [] => [String c EmptyString]
           end
  end.

(** [xs.join(",")] *)
Fixpoint joinComma (xs : list string) : string :=
  match xs with
  | [] => EmptyString
  | [x] => x
  | x :: rest => x ++ "," ++ joinComma rest
  end.

(** [parseInt(s, 10)]: leading white space, an optional sign, then the
    longest run of digits; [None] is [NaN].  The value is kept exact: it is
    the number the code gets when it is a safe integer. *)
Definition parseInt (s : string) : option Z :=
  let s1 := trimStart s in
  let '(negative, s2) :=
    match s1 with
    | String "-" t => (true, t)
    | String "+" t => (false, t)
    | _ => (false, s1)
    end in
  match plusRun isDigit s2 with
  | Some digits =>
      let v := Z.of_N (digitsValue 0 digits) in
      Some (if negative then (- v)%Z else v)
  | None => None
  end.

End JsString.

Import JsString.

(** ** The error classes of [src/core/errors.ts] *)

(** [bookId: number | string] *)
Inductive BookId : Type :=
| IdNumber (n : N)
| IdString (s : string).

(** The values the library throws.  [Error] is a plain JavaScript error;
    [ExecaError] is the rejection of the [execa] promise, with the three
    properties [execCalibre] reads from it. *)
Inductive JsError : Type :=
| Error (message : string)
| ExecaError (message stderr stdout : string)
| CalibreError (message command stderr : string)
| BookNotFoundError (bookId : BookId) (command stderr : string)
| CalibreNotFoundError (message : string)
| LibraryNotFoundError (libraryPath command stderr : string).

(** The taxonomy of the specification. *)
Inductive ErrorCase : Type :=
| GenericFailure | NotFound | ResourceNotFound | ToolMissing | Unclassified.

Definition errorCase (e : JsError) : ErrorCase :=
  match e with
  | CalibreError _ _ _ => GenericFailure
  | BookNotFoundError _ _ _ => NotFound
  | LibraryNotFoundError _ _ _ => ResourceNotFound
  | CalibreNotFoundError _ => ToolMissing
  | Error _ | ExecaError _ _ _ => Unclassified
  end.

(** [error instanceof CalibreError] *)
Definition isCalibreError (e : JsError) : bool :=
  match e with
  | CalibreError _ _ _ | BookNotFoundError _ _ _ | LibraryNotFoundError _ _ _ => true
  | _ => false
  end.

(** The [command] and [stderr] properties, [None] where the class has none. *)
Definition errorCommand (e : JsError) : option string :=
  match e with
  | CalibreError _ c _ | BookNotFoundError _ c _ | LibraryNotFoundError _ c _ => Some c
  | _ => None
  end.

Definition errorStderr (e : JsError) : option string :=
  match e with
  | ExecaError _ s _ => Some s
  | CalibreError _ _ s | BookNotFoundError _ _ s | LibraryNotFoundError _ _ s => Some s
  | _ => None
  end.

Definition errorStdout (e : JsError) : option string :=
  match e with
  | ExecaError _ _ s => Some s
  | _ => None
  end.

Definition N_to_string (n : N) : string :=
  NilEmpty.string_of_uint (N.to_uint n).

Definition BookId_toString (b : BookId) : string :=
  match b with
  | IdNumber n => N_to_string n
  | IdString s => s
  end.

(** The [message] property, as the constructors compute it. *)
Definition errorMessage (e : JsError) : string :=
  match e with
  | Error m | ExecaError m _ _ | CalibreError m _ _ | CalibreNotFoundError m => m
  | BookNotFoundError b _ _ => "Book with ID " ++ BookId_toString b ++ " not found"
  | LibraryNotFoundError p _ _ => "Library not found at path: " ++ p
  end.

(** ** [determineErrorType] *)

(** [/id: (\d+)/] attempted at the start of [s]; the capture group. *)
Definition idMatchAt (s : string) : option string :=
  match stripPrefix "id: " s with
  | Some rest => plusRun isDigit rest
  | None => None
  end.

(** [[:\s]*([^\s]+)]: the greedy star takes a separator when it can and
    gives it back when the rest of the pattern then fails. *)
Fixpoint sepStarToken (s : string) : option string :=
  match s with
  | EmptyString => None
  | String c t =>
      if isSpace c || Ascii.eqb c ":" then
        match sepStarToken t with
        | Some tok => Some tok
        | None => plusRun (fun x => negb (isSpace x)) s
        end
      else plusRun (fun x => negb (isSpace x)) s
  end.

(** [/path[:\s]+([^\s]+)/i] attempted at the start of [s]. *)
Definition pathMatchAt (s : string) : option string :=
  match stripPrefixCI "path" s with
  | Some (String c t) =>
      if isSpace c || Ascii.eqb c ":" then sepStarToken t else None
  | _ => None
  end.

Definition mentionsBook (errorMessage : string) : bool :=
  includes errorMessage "no book with id" || includes errorMessage "book not found".

Definition mentionsLibrary (errorMessage : string) : bool :=
  includes errorMessage "library not found" || includes errorMessage "cannot find library".

Definition mentionsExecutable (errorMessage : string) : bool :=
  includes errorMessage "command not found" || includes errorMessage "calibredb: not found".

Definition determineErrorType (error : JsError) (command stderr : string)
  : JsError :=
  let errorMessage := toLowerCase stderr in
  if mentionsBook errorMessage then
    let idMatch := search idMatchAt errorMessage in
    let bookId :=
      match idMatch with
      | Some digits => IdNumber (digitsValue 0 digits)
      | None => IdString "unknown"
      end in
    BookNotFoundError bookId command stderr
  else if mentionsLibrary errorMessage then
    let pathMatch := search pathMatchAt errorMessage in
    let libraryPath :=
      match pathMatch with
      | Some p => p
      | None => "unknown"
      end in
    LibraryNotFoundError libraryPath command stderr
  else if mentionsExecutable errorMessage then
    CalibreNotFoundError "calibredb executable not found"
  else
    CalibreError ("Error executing calibredb " ++ command) command stderr.

(** ** Options ([src/types/options.ts]) *)

Record CalibreOptions : Type := {
  libraryPath : option string;
  calibreBin : option string;
  forMachine : option bool;
  stream : option bool;
  debug : option bool
}.

Inductive Automerge : Type := ignore | overwrite | new_record.

Definition Automerge_toString (a : Automerge) : string :=
  match a with
  | ignore => "ignore"
  | overwrite => "overwrite"
  | new_record => "new_record"
  end.

(** [AddOptions extends CalibreOptions]; the inherited part is [calibre]. *)
Record AddOptions : Type := {
  calibre : CalibreOptions;
  allowDuplicates : option bool;
  automerge : option Automerge;
  empty : option bool;
  title : option string;
  author : option string;
  isbn : option string;
  identifiers : option (list string);
  tags : option (list string);
  series : option string;
  seriesIndex : option Z;
  languages : option (list string);
  recursive : option bool;
  oneBookPerDirectory : option bool
}.

(** [RemoveOptions extends CalibreOptions] *)
Record RemoveOptions : Type := {
  removeCalibre : CalibreOptions;
  permanent : option bool
}.

Inductive SortOrder : Type := ASC | DESC.

(** [ListOptions extends CalibreOptions] *)
Record ListOptions : Type := {
  listCalibre : CalibreOptions;
  fields : option (list string);
  sortBy : option string;
  sortOrder : option SortOrder;
  searchExpression : option string;
  limit : option Z
}.

(** [{}] *)
Definition noOptions : CalibreOptions :=
  {| libraryPath := None; calibreBin := None; forMachine := None;
     stream := None; debug := None |}.

Definition noAddOptions : AddOptions :=
  {| calibre := noOptions; allowDuplicates := None; automerge := None;
     empty := None; title := None; author := None; isbn := None;
     identifiers := None; tags := None; series := None; seriesIndex := None;
     languages := None; recursive := None; oneBookPerDirectory := None |}.

(** Truthiness of an optional boolean and of an optional string. *)
Definition flagSet (b : option bool) : bool :=
  match b with Some true => true | _ => false end.

Definition textSet (s : option string) : bool :=
  match s with Some t => truthy t | None => false end.

(** [{ ...options, forMachine: true }] *)
Definition withForMachine (options : CalibreOptions) : CalibreOptions :=
  {| libraryPath := libraryPath options; calibreBin := calibreBin options;
     forMachine := Some true; stream := stream options;
     debug := debug options |}.

(** [{ ...options, empty: true }] *)
Definition withEmpty (options : AddOptions) : AddOptions :=
  {| calibre := calibre options; allowDuplicates := allowDuplicates options;
     automerge := automerge options; empty := Some true;
     title := title options; author := author options; isbn := isbn options;
     identifiers := identifiers options; tags := tags options;
     series := series options; seriesIndex := seriesIndex options;
     languages := languages options; recursive := recursive options;
     oneBookPerDirectory := oneBookPerDirectory options |}.

(** [n.toString()] of an integer: its decimal numeral, which is what the
    code prints for the safe integers. *)
Definition Z_to_string (z : Z) : string :=
  NilEmpty.string_of_int (Z.to_int z).

(** ** Child processes and [async] functions *)

(** What [execa] reports about a finished child process. *)
Record ExecaResult : Type := {
  exitCode : Z;
  stdout : string;
  stderr : string;
  message : string
}.

(** One spawned process: the executable and its argument vector. *)
Definition Spawn : Type := (string * list string)%type.

(** The external tool: what a process does, given the processes spawned
    before it. *)
Definition Tool : Type := list Spawn -> string -> list string -> ExecaResult.

Inductive Settled (A : Type) : Type :=
| Resolved (a : A)
| Rejected (e : JsError).

Arguments Resolved {A} a.
Arguments Rejected {A} e.

Definition Async (A : Type) : Type := list Spawn -> Settled A * list Spawn.

Definition resolve {A : Type} (a : A) : Async A :=
  fun log => (Resolved a, log).

Definition throw {A : Type} (e : JsError) : Async A :=
  fun log => (Rejected e, log).

Definition await {A B : Type} (m : Async A) (k : A -> Async B) : Async B :=
  fun log =>
    match m log with
    | (Resolved a, log') => k a log'
    | (Rejected e, log') => (Rejected e, log')
    end.

Definition tryCatch {A : Type} (m : Async A) (handler : JsError -> Async A)
  : Async A :=
  fun log =>
    match m log with
    | (Resolved a, log') => (Resolved a, log')
    | (Rejected e, log') => handler e log'
    end.

Notation "x <- m ;; k" := (await m (fun x => k))
  (at level 61, m at next level, right associativity).

(** [o || d] where [o] is a property that may be [undefined]. *)
Definition orDefault (o : option string) (d : string) : string :=
  match o with
  | Some s => orElse s d
  | None => d
  end.

(** ** The exec layer ([src/core/exec.ts]) *)

(** The argument vector [execArgs] that [execCalibre] and
    [execCalibreStream] build before they launch the tool. *)
Definition execArgs (command : string) (args : list string)
  (options : CalibreOptions) : list string :=
  let execArgs0 := [command] in
  let execArgs1 :=
    match libraryPath options with
    | Some p => if truthy p then execArgs0 ++ ["--library-path"; p]
                else execArgs0
    | None => execArgs0
    end%list in
  let execArgs2 :=
    (if flagSet (forMachine options) then execArgs1 ++ ["--for-machine"]
     else execArgs1)%list in
  (execArgs2 ++ args)%list.

(** [calibreBin = "calibredb"]: the default replaces [undefined] only. *)
Definition binOf (options : CalibreOptions) : string :=
  match calibreBin options with
  | Some b => b
  | None => "calibredb"
  end.

Section ExecLayer.

Variable tool : Tool.

(** JSON values and [JSON.parse]; [None] when it throws. *)
Variable Json : Type.
Variable JSON_parse : string -> option Json.

(** [execa(file, args)] with its default [reject: true]: the process is
    spawned, and the promise rejects when the exit code is not zero. *)
Definition execa (file : string) (args : list string) : Async ExecaResult :=
  fun log =>
    let r := tool log file args in
    let log' := (log ++ [(file, args)])%list in
    if (exitCode r =? 0)%Z then (Resolved r, log')
    else (Rejected (ExecaError (message r) (stderr r) (stdout r)), log').

Definition execCalibre (command : string) (args : list string)
  (options : CalibreOptions) : Async string :=
  tryCatch
    (r <- execa (binOf options) (execArgs command args options) ;;
     resolve (stdout r))
    (fun error =>
       throw (CalibreError
                ("Failed to execute calibredb " ++ command ++ ": "
                 ++ errorMessage error)
                command
                (orDefault (errorStderr error)
                   (orDefault (errorStdout error)
                      "No error output available")))).

Definition execCalibreJson (command : string) (args : list string)
  (options : CalibreOptions) : Async Json :=
  let jsonOptions := withForMachine options in
  output <- execCalibre command args jsonOptions ;;
  match JSON_parse output with
  | Some v => resolve v
  | None =>
      throw (CalibreError
               ("Failed to parse JSON output from calibredb " ++ command)
               command output)
  end.

(** [execCalibreStream] hands back the [execa] promise itself: nothing
    catches its rejection.  The [stdio] option of this call (standard input
    ignored) is not part of the model. *)
Definition execCalibreStream (command : string) (args : list string)
  (options : CalibreOptions) : Async ExecaResult :=
  execa (binOf options) (execArgs command args options).

(** ** The add adapter ([src/commands/add.ts]) *)

(** [/Added book ids?: (.+)/i] attempted at the start of [s]: the optional
    [s] is tried first, then skipped. *)
Definition addedMatchAt (s : string) : option string :=
  match stripPrefixCI "Added book id" s with
  | Some rest =>
      let tail (r : string) : option string :=
        match stripPrefixCI ": " r with
        | Some ids => plusRun (fun c => negb (isLineTerminator c)) ids
        | None => None
        end in
      match
        match rest with
        | String c r => if eqCharCI "s" c then tail r else None
        | EmptyString => None
        end
      with
      | Some ids => Some ids
      | None => tail rest
      end
  | None => None
  end.

Fixpoint filterMap {A B : Type} (f : A -> option B) (xs : list A) : list B :=
  match xs with
  | [] => []
  | x :: rest =>
      match f x with
      | Some y => y :: filterMap f rest
      | None => filterMap f rest
      end
  end.

(** The ids of the confirmation line. *)
Definition parseIds (ids : string) : list Z :=
  filterMap parseInt
    (filter (fun id => negb (String.length id =? 0)%nat)
       (map trim (splitComma ids))).

Definition addArgs (paths : list string) (options : AddOptions)
  : list string :=
  ((match automerge options with
    | Some a => ["--automerge"; Automerge_toString a]
    | None => []
    end)
   ++ (if flagSet (allowDuplicates options) then ["--duplicates"] else [])
   ++ (if flagSet (recursive options) then ["--recurse"] else [])
   ++ (if flagSet (oneBookPerDirectory options)
       then ["--one-book-per-directory"] else [])
   ++ (if flagSet (empty options) then ["--empty"] else [])
   ++ (match author options with
       | Some a => if truthy a then ["--author"; a] else []
       | None => []
       end)
   ++ (match title options with
       | Some t => if truthy t then ["--title"; t] else []
       | None => []
       end)
   ++ (match tags options with
       | Some (t :: ts) => ["--tags"; joinComma (t :: ts)]
       | _ => []
       end)
   ++ (match series options with
       | Some s => if truthy s then ["--series"; s] else []
       | None => []
       end)
   ++ (match seriesIndex options with
       | Some i => ["--series-index"; Z_to_string i]
       | None => []
       end)
   ++ (match isbn options with
       | Some i => if truthy i then ["--isbn"; i] else []
       | None => []
       end)
   ++ (match identifiers options with
       | Some ids => flat_map (fun identifier => ["--identifier"; identifier]) ids
       | None => []
       end)
   ++ (match languages options with
       | Some ls => ["--languages"; joinComma ls]
       | None => []
       end)
   ++ paths)%list.

(** What the promise of [add] settles to: the ids, or, in streaming mode,
    the result of the [execa] promise it returned. *)
Inductive AddResult : Type :=
| Ids (ids : list Z)
| Streamed (r : ExecaResult).

Definition add (paths : list string) (options : AddOptions)
  : Async AddResult :=
  let args := addArgs paths options in
  if flagSet (stream (calibre options)) then
    r <- execCalibreStream "add" args (calibre options) ;;
    resolve (Streamed r)
  else
    output <- execCalibre "add" args (calibre options) ;;
    match search addedMatchAt output with
    | Some ids => resolve (Ids (parseIds ids))
    | None => resolve (Ids [])
    end.

(** [ids.length > 0 ? ids[0] : null] *)
Definition firstId (r : AddResult) : option Z :=
  match r with
  | Ids (id :: _) => Some id
  | _ => None
  end.

Definition addBook (path : string) (options : AddOptions)
  : Async (option Z) :=
  ids <- add [path] options ;;
  resolve (firstId ids).

Definition addEmptyBook (options : AddOptions) : Async (option Z) :=
  if negb (textSet (title options)) then
    throw (Error "Title is required for an empty book")
  else
    ids <- add [] (withEmpty options) ;;
    resolve (firstId ids).

(** ** The remove adapter ([src/commands/remove.ts]) *)

Definition removeArgs (bookIds : list Z) (options : RemoveOptions)
  : list string :=
  (map Z_to_string bookIds
   ++ (if flagSet (permanent options) then ["--permanent"] else []))%list.

Definition remove (bookIds : list Z) (options : RemoveOptions)
  : Async unit :=
  _ <- execCalibre "remove" (removeArgs bookIds options)
         (removeCalibre options) ;;
  resolve tt.

(** ** The list adapter ([src/commands/list.ts]) *)

Definition listArgs (options : ListOptions) : list string :=
  ((match fields options with
    | Some (f :: fs) => ["--fields"; joinComma (f :: fs)]
    | _ => []
    end)
   ++ (match searchExpression options with
       | Some e => if truthy e then ["--search"; e] else []
       | None => []
       end)
   ++ (match limit options with
       | Some n => ["--limit"; Z_to_string n]
       | None => []
       end)
   ++ (match sortBy options with
       | Some f =>
           if truthy f then
             let sortDirection :=
               match sortOrder options with
               | Some DESC => "-"
               | _ => EmptyString
               end in
             ["--sort-by"; (sortDirection ++ f)%string]
           else []
       | None => []
       end))%list.

(** [list], renamed so that it does not hide the type of lists. *)
Definition listBooks (options : ListOptions) : Async Json :=
  execCalibreJson "list" (listArgs options)
    (withForMachine (listCalibre options)).

End ExecLayer.

(** ** The earlier revision of the exec layer *)

Module Historical.

Definition execArgs (command : string) (args : list string)
  (options : CalibreOptions) : list string :=
  let execArgs0 := [command] in
  let execArgs1 :=
    match libraryPath options with
    | Some p => if truthy p then execArgs0 ++ ["--library-path"; p]
                else execArgs0
    | None => execArgs0
    end%list in
  (execArgs1 ++ args)%list.

Section ExecLayer.

Variable tool : Tool.
Variable Json : Type.
Variable JSON_parse : string -> option Json.

Definition execCalibre (command : string) (args : list string)
  (options : CalibreOptions) : Async string :=
  tryCatch
    (r <- execa tool (binOf options) (execArgs command args options) ;;
     resolve (stdout r))
    (fun error =>
       throw (CalibreError
                ("Failed to execute calibredb " ++ command ++ ": "
                 ++ errorMessage error)
                command
                (orDefault (errorStderr error)
                   (orDefault (errorStdout error)
                      "No error output available")))).

(** [args.push("--for-machine")] comes first: the flag goes after the
    caller's arguments (and into the caller's array). *)
Definition execCalibreJson (command : string) (args : list string)
  (options : CalibreOptions) : Async Json :=
  let args' := (args ++ ["--for-machine"])%list in
  output <- execCalibre command args' options ;;
  match JSON_parse output with
  | Some v => resolve v
  | None =>
      throw (CalibreError
               ("Failed to parse JSON output from calibredb " ++ command)
               command output)
  end.

End ExecLayer.

End Historical.

(** The argument vector of the last process a computation launched. *)
Definition launchedWith {A : Type} (m : Async A) (log : list Spawn)
  : list string :=
  last (map snd (snd (m log))) [].

(** The closed set of classified errors. *)
Definition classified (e : JsError) : Prop :=
  In (errorCase e) [GenericFailure; NotFound; ResourceNotFound; ToolMissing].

(** ** The phrases of the classifier, stated on the captured text *)

(** A pattern character that [toLowerCase] can only produce from itself or
    from its ASCII capital: an ASCII character that is not a capital. *)
Definition plainChar (p : ascii) : bool :=
  (code p <? 128)%N && negb (isAsciiUpper p).

Fixpoint plainPhrase (s : string) : bool :=
  match s with
  | EmptyString => true
  | String p t => plainChar p && plainPhrase t
  end.

Definition bookPhrase (stderr : string) : Prop :=
  containsIgnoreCase stderr "no book with id"
  \/ containsIgnoreCase stderr "book not found".

Definition libraryPhrase (stderr : string) : Prop :=
  containsIgnoreCase stderr "library not found"
  \/ containsIgnoreCase stderr "cannot find library".

Definition executablePhrase (stderr : string) : Prop :=
  containsIgnoreCase stderr "command not found"
  \/ containsIgnoreCase stderr "calibredb: not found".

(** No digit follows any [id: ] of the lower-cased text. *)
Definition noIdDetail (stderr : string) : Prop :=
  forall pre d post,
    toLowerCase stderr = pre ++ "id: " ++ String d post -> isDigit d = false.

Fixpoint allSeparators (s : string) : bool :=
  match s with
  | EmptyString => true
  | String c t => (isSpace c || Ascii.eqb c ":") && allSeparators t
  end.

(** No [path], in either case, of the lower-cased text is followed by
    separators (colons, white space) and then a character that is not
    white space. *)
Definition noPathDetail (stderr : string) : Prop :=
  forall pre word sep seps d post,
    toLowerCase stderr = pre ++ word ++ String sep (seps ++ String d post) ->
    eqIgnoreCase word "path" = true ->
    allSeparators (String sep seps) = true ->
    isSpace d = true.

(** The confirmation line of [calibredb add]: the words, in either case,
    then at least one character of the same line. *)
Definition confirmationLine (output : string) : Prop :=
  exists pre words c post,
    output = pre ++ words ++ String c post
    /\ (eqIgnoreCase words "Added book id: " = true
        \/ eqIgnoreCase words "Added book ids: " = true)
    /\ isLineTerminator c = false.

(** The library-path pair and the machine-readable flag, as the exec layer
    adds them. *)
Definition libraryPathArgs (options : CalibreOptions) : list string :=
  match libraryPath options with
  | Some p => if truthy p then ["--library-path"; p] else []
  | None => []
  end.

Definition forMachineArgs (options : CalibreOptions) : list string :=
  if flagSet (forMachine options) then ["--for-machine"] else [].

(** The argument vector as the specification words it: the pair is there
    whenever [libraryPath] is present. *)
Definition specifiedExecArgs (command : string) (args : list string)
  (options : CalibreOptions) : list string :=
  ([command]
   ++ (match libraryPath options with
       | Some p => ["--library-path"; p]
       | None => []
       end)
   ++ forMachineArgs options ++ args)%list.

(** A tool that ends the same way whatever it is asked. *)
Definition constTool (r : ExecaResult) : Tool := fun _ _ _ => r.

Definition exitsWith (code : Z) (out err : string) : ExecaResult :=
  {| exitCode := code; stdout := out; stderr := err;
     message := "Command failed with exit code " ++ Z_to_string code |}.

(** A phrase matched with the [i] flag and then [(.+)]: the rest of the
    line, which must not be empty. *)
Definition phraseThenLine (phrase s : string) : option string :=
  match stripPrefixCI phrase s with
  | Some ids => plusRun (fun c => negb (isLineTerminator c)) ids
  | None => None
  end.

(** The options of the test "should throw an error when adding an empty
    book without a title": a library and an author, no title. *)
Definition authorOnlyOptions : AddOptions :=
  {| calibre :=
       {| libraryPath := Some "/tmp/library"; calibreBin := None;
          forMachine := None; stream := None; debug := None |};
     allowDuplicates := None; automerge := None; empty := None;
     title := None; author := Some "Nobody"; isbn := None;
     identifiers := None; tags := None; series := None;
     seriesIndex := None; languages := None; recursive := None;
     oneBookPerDirectory := None |}.

(** [libraryPath] present and empty. *)
Definition emptyLibraryPath : CalibreOptions :=
  {| libraryPath := Some EmptyString; calibreBin := None; forMachine := None;
     stream := None; debug := None |}.

(** [{ stream: true }] *)
Definition streamingOptions : AddOptions :=
  {| calibre :=
       {| libraryPath := None; calibreBin := None; forMachine := None;
          stream := Some true; debug := None |};
     allowDuplicates := None; automerge := None; empty := None;
     title := None; author := None; isbn := None;
     identifiers := None; tags := None; series := None;
     seriesIndex := None; languages := None; recursive := None;
     oneBookPerDirectory := None |}.

(** ** The convenience wrappers of the adapters *)

(** [{ ...options, permanent: true }] *)
Definition withPermanent (options : RemoveOptions) : RemoveOptions :=
  {| removeCalibre := removeCalibre options; permanent := Some true |}.

(** [{ ...options, recursive: true }] *)
Definition withRecursive (options : AddOptions) : AddOptions :=
  {| calibre := calibre options; allowDuplicates := allowDuplicates options;
     automerge := automerge options; empty := empty options;
     title := title options; author := author options; isbn := isbn options;
     identifiers := identifiers options; tags := tags options;
     series := series options; seriesIndex := seriesIndex options;
     languages := languages options; recursive := Some true;
     oneBookPerDirectory := oneBookPerDirectory options |}.

Section Wrappers.

Variable tool : Tool.

Definition removeBook (bookId : Z) (options : RemoveOptions) : Async unit :=
  remove tool [bookId] options.

Definition removePermanently (bookIds : list Z) (options : RemoveOptions)
  : Async unit :=
  remove tool bookIds (withPermanent options).

Definition removeBySearch (searchExpression : string)
  (_options : RemoveOptions) : Async unit :=
  throw (Error "Not Implemented!").

Definition addDirectory (directoryPath : string) (options : AddOptions)
  : Async AddResult :=
  add tool [directoryPath] (withRecursive options).

End Wrappers.

(** [this.name], as the constructors of [src/core/errors.ts] set it. *)
Definition errorName (e : JsError) : string :=
  match e with
  | Error _ => "Error"
  | ExecaError _ _ _ => "ExecaError"
  | CalibreError _ _ _ => "CalibreError"
  | BookNotFoundError _ _ _ => "BookNotFoundError"
  | CalibreNotFoundError _ => "CalibreNotFoundError"
  | LibraryNotFoundError _ _ _ => "LibraryNotFoundError"
  end.

(** [CalibreError.prototype.toString], which the two subclasses inherit;
    [None] for the errors that are not instances of [CalibreError]. *)
Definition CalibreError_toString (e : JsError) : option string :=
  match errorCommand e, errorStderr e with
  | Some command, Some stderr =>
      if isCalibreError e then
        Some (errorName e ++ ": " ++ errorMessage e
              ++ String "010" ("Command: " ++ command
              ++ String "010" ("Output: " ++ stderr)))
      else None
  | _, _ => None
  end.

(** ** Texts used to state the properties of the adapters *)

Fixpoint allChars (p : ascii -> bool) (s : string) : bool :=
  match s with
  | EmptyString => true
  | String c t => p c && allChars p t
  end.

(** [xs.join(sep)] *)
Fixpoint joinWith (sep : string) (xs : list string) : string :=
  match xs with
  | [] => EmptyString
  | [x] => x
  | x :: rest => x ++ sep ++ joinWith sep rest
  end.

(** The ids as [calibredb add] prints them: [1, 2, 3]. *)
Definition idsLine (ids : list Z) : string :=
  joinWith ", " (map Z_to_string ids).

(** The text is over, or goes on with a new line. *)
Definition lineEnds (s : string) : bool :=
  match s with
  | EmptyString => true
  | String c _ => isLineTerminator c
  end.

(** The text is over, or goes on with something that is not a digit. *)
Definition numberEnds (s : string) : bool :=
  match s with
  | EmptyString => true
  | String c _ => negb (isDigit c)
  end.

(** The characters of a printed integer: digits, after a sign at most. *)
Definition numeralChar (c : ascii) : bool := isDigit c || Ascii.eqb c "-".

(** A character that [toLowerCase] leaves alone. *)
Definition lowerFixed (c : ascii) : bool := Ascii.eqb (lowerChar c) c.

(** The options of [list] with another value of [forMachine]. *)
Definition setListForMachine (b : option bool) (options : ListOptions)
  : ListOptions :=
  {| listCalibre :=
       {| libraryPath := libraryPath (listCalibre options);
          calibreBin := calibreBin (listCalibre options);
          forMachine := b;
          stream := stream (listCalibre options);
          debug := debug (listCalibre options) |};
     fields := fields options; sortBy := sortBy options;
     sortOrder := sortOrder options;
     searchExpression := searchExpression options;
     limit := limit options |}.

(** [Number.isSafeInteger]: the integers that a JavaScript number holds
    exactly and that [toString] prints in plain decimal. *)
Definition isSafeInteger (z : Z) : bool :=
  (Z.abs z <=? 9007199254740991)%Z.

(** The text is over, or goes on with white space. *)
Definition tokenEnds (s : string) : bool :=
  match s with
  | EmptyString => true
  | String c _ => isSpace c
  end.

(** [{ libraryPath: "/tmp/library" }] *)
Definition libraryOptions : CalibreOptions :=
  {| libraryPath := Some "/tmp/library"; calibreBin := None;
     forMachine := None; stream := None; debug := None |}.

(** * Properties *)

(** ** Strings *)

Lemma eqCharCI_sym (a b : ascii) : eqCharCI a b = eqCharCI b a.
Proof.
  unfold eqCharCI.
  rewrite (Ascii.eqb_sym a b).
  destruct (Ascii.eqb b a); simpl; [reflexivity|].
  apply orb_comm.
Qed.

Lemma lowerChar_plain (p : ascii) : plainChar p = true -> lowerChar p = p.
Proof.
  unfold plainChar, lowerChar, isLatin1Upper; intros H.
  apply andb_true_iff in H as [Hlt Hup].
  apply negb_true_iff in Hup; rewrite Hup; simpl.
  apply N.ltb_lt in Hlt.
  destruct (192 <=? code p)%N eqn:E; simpl; [|reflexivity].
  apply N.leb_le in E; lia.
Qed.

Lemma eqCharCI_lowerChar (c p : ascii) :
  plainChar p = true -> eqCharCI c p = true -> lowerChar c = p.
Proof.
  intros Hp H.
  unfold eqCharCI in H.
  apply orb_true_iff in H as [H|H]; [apply orb_true_iff in H as [H|H]|].
  - apply Ascii.eqb_eq in H; subst c. now apply lowerChar_plain.
  - apply andb_true_iff in H as [Hup Hc].
    apply N.eqb_eq in Hc.
    unfold lowerChar; rewrite Hup; simpl.
    rewrite Hc. apply ascii_N_embedding.
  - apply andb_true_iff in H as [Hup _].
    unfold plainChar in Hp. rewrite Hup in Hp.
    rewrite andb_false_r in Hp; discriminate.
Qed.

Lemma lowerChar_eqCharCI (c p : ascii) :
  plainChar p = true -> lowerChar c = p -> eqCharCI c p = true.
Proof.
  unfold plainChar; intros Hp H.
  apply andb_true_iff in Hp as [Hlt Hup].
  apply N.ltb_lt in Hlt.
  unfold lowerChar in H. unfold eqCharCI.
  destruct (isAsciiUpper c) eqn:Ec; simpl in H.
  - assert (Hc : (code c + 32 = code p)%N).
    { subst p. unfold code at 2. rewrite N_ascii_embedding; [reflexivity|].
      unfold isAsciiUpper in Ec. apply andb_true_iff in Ec as [_ Ec].
      apply N.leb_le in Ec. lia. }
    apply N.eqb_eq in Hc. rewrite Hc. simpl.
    rewrite orb_true_r. reflexivity.
  - destruct (isLatin1Upper c) eqn:El.
    + exfalso. unfold isLatin1Upper in El.
      apply andb_true_iff in El as [El _].
      apply andb_true_iff in El as [El1 El2].
      apply N.leb_le in El1, El2.
      assert (Hc : code p = (code c + 32)%N).
      { subst p. unfold code at 1. rewrite N_ascii_embedding; [reflexivity|lia]. }
      lia.
    + subst p. rewrite Ascii.eqb_refl. reflexivity.
Qed.

Lemma toLowerCase_app (a b : string) :
  toLowerCase (a ++ b) = toLowerCase a ++ toLowerCase b.
Proof.
  induction a as [|c a IH]; simpl; [reflexivity|].
  now rewrite IH.
Qed.

Lemma eqIgnoreCase_toLowerCase (mid p : string) :
  plainPhrase p = true -> eqIgnoreCase mid p = true -> toLowerCase mid = p.
Proof.
  revert p; induction mid as [|c mid IH]; intros [|q p] Hp H;
    simpl in *; try discriminate; [reflexivity|].
  apply andb_true_iff in Hp as [Hq Hp].
  apply andb_true_iff in H as [Hc H].
  f_equal; [now apply eqCharCI_lowerChar | now apply IH].
Qed.

Lemma toLowerCase_eqIgnoreCase (mid p : string) :
  plainPhrase p = true -> toLowerCase mid = p -> eqIgnoreCase mid p = true.
Proof.
  revert p; induction mid as [|c mid IH]; intros [|q p] Hp H;
    simpl in *; try discriminate; [reflexivity|].
  apply andb_true_iff in Hp as [Hq Hp].
  injection H as Hc H.
  apply andb_true_iff; split; [now apply lowerChar_eqCharCI | now apply IH].
Qed.

Lemma toLowerCase_split (s a b : string) :
  toLowerCase s = a ++ b ->
  exists a' b', s = a' ++ b' /\ toLowerCase a' = a /\ toLowerCase b' = b.
Proof.
  revert s; induction a as [|x a IH]; intros s H.
  - exists EmptyString, s. repeat split. exact H.
  - destruct s as [|c s]; simpl in H; [discriminate|].
    injection H as Hx H.
    destruct (IH s H) as (a' & b' & -> & Ha & Hb).
    exists (String c a'), b'. simpl. rewrite Hx, Ha. repeat split. exact Hb.
Qed.

Lemma startsWith_app (sub post : string) : startsWith sub (sub ++ post) = true.
Proof.
  induction sub as [|c sub IH]; simpl; [reflexivity|].
  now rewrite Ascii.eqb_refl.
Qed.

Lemma startsWith_split (sub s : string) :
  startsWith sub s = true -> exists post, s = sub ++ post.
Proof.
  revert s; induction sub as [|c sub IH]; intros s H.
  - now exists s.
  - destruct s as [|d s]; simpl in H; [discriminate|].
    apply andb_true_iff in H as [Hc H].
    apply Ascii.eqb_eq in Hc; subst d.
    destruct (IH s H) as [post ->]. now exists post.
Qed.

Lemma startsWith_includes (sub s : string) :
  startsWith sub s = true -> includes s sub = true.
Proof. destruct s; simpl; intros ->; reflexivity. Qed.

Lemma includes_app (pre sub post : string) :
  includes (pre ++ sub ++ post) sub = true.
Proof.
  induction pre as [|c pre IH]; simpl.
  - apply startsWith_includes, startsWith_app.
  - rewrite IH. apply orb_true_r.
Qed.

Lemma includes_split (s sub : string) :
  includes s sub = true -> exists pre post, s = pre ++ sub ++ post.
Proof.
  induction s as [|c s IH]; simpl; intros H.
  - rewrite orb_false_r in H.
    destruct (startsWith_split _ _ H) as [post ->].
    now exists EmptyString, post.
  - apply orb_true_iff in H as [H|H].
    + destruct (startsWith_split _ _ H) as [post ->].
      now exists EmptyString, post.
    + destruct (IH H) as (pre & post & ->).
      now exists (String c pre), post.
Qed.

(** The test [toLowerCase(stderr).includes(phrase)] is the occurrence of
    the phrase in [stderr] up to ASCII case. *)
Lemma includes_toLowerCase (s phrase : string) :
  plainPhrase phrase = true ->
  includes (toLowerCase s) phrase = true <-> containsIgnoreCase s phrase.
Proof.
  intros Hp; split.
  - intros H.
    destruct (includes_split _ _ H) as (pre & post & E).
    destruct (toLowerCase_split _ _ _ E) as (pre' & rest & -> & _ & E').
    destruct (toLowerCase_split _ _ _ E') as (mid & post' & -> & Hm & _).
    exists pre', mid, post'. split; [reflexivity|].
    now apply toLowerCase_eqIgnoreCase.
  - intros (pre & mid & post & -> & H).
    rewrite !toLowerCase_app.
    rewrite (eqIgnoreCase_toLowerCase _ _ Hp H).
    apply includes_app.
Qed.

Lemma mentionsBook_spec (stderr : string) :
  mentionsBook (toLowerCase stderr) = true <-> bookPhrase stderr.
Proof.
  unfold mentionsBook, bookPhrase.
  rewrite orb_true_iff, !includes_toLowerCase by reflexivity.
  reflexivity.
Qed.

Lemma mentionsLibrary_spec (stderr : string) :
  mentionsLibrary (toLowerCase stderr) = true <-> libraryPhrase stderr.
Proof.
  unfold mentionsLibrary, libraryPhrase.
  rewrite orb_true_iff, !includes_toLowerCase by reflexivity.
  reflexivity.
Qed.

Lemma mentionsExecutable_spec (stderr : string) :
  mentionsExecutable (toLowerCase stderr) = true <-> executablePhrase stderr.
Proof.
  unfold mentionsExecutable, executablePhrase.
  rewrite orb_true_iff, !includes_toLowerCase by reflexivity.
  reflexivity.
Qed.

(** ** The matcher against the patterns it implements *)

Lemma search_None {A : Type} (matchAt : string -> option A) (s : string) :
  search matchAt s = None <->
  forall pre rest, s = pre ++ rest -> matchAt rest = None.
Proof.
  induction s as [|c s IH]; simpl.
  - destruct (matchAt EmptyString) eqn:E.
    + split; [discriminate|]. intros H.
      specialize (H EmptyString EmptyString eq_refl). congruence.
    + split; [|reflexivity].
      intros _ [|x pre] rest Hs; simpl in Hs; [subst rest; exact E|discriminate].
  - destruct (matchAt (String c s)) eqn:E.
    + split; [discriminate|]. intros H.
      specialize (H EmptyString (String c s) eq_refl). congruence.
    + rewrite IH. split.
      * intros H [|x pre] rest Hs; simpl in Hs; [subst rest; exact E|].
        injection Hs as _ Hs. now apply (H pre rest).
      * intros H pre rest Hs.
        apply (H (String c pre) rest). simpl. now rewrite Hs.
Qed.

Lemma stripPrefix_Some (pat s rest : string) :
  stripPrefix pat s = Some rest <-> s = pat ++ rest.
Proof.
  revert s; induction pat as [|p pat IH]; intros s; simpl.
  - split; intros H; [now injection H|now subst].
  - destruct s as [|c s]; [split; discriminate|].
    destruct (Ascii.eqb p c) eqn:E.
    + apply Ascii.eqb_eq in E; subst c. rewrite IH.
      split; intros H; [now subst|now injection H].
    + apply Ascii.eqb_neq in E.
      split; [discriminate|]. intros H; injection H as H _. congruence.
Qed.

Lemma stripPrefixCI_Some (pat s rest : string) :
  stripPrefixCI pat s = Some rest <->
  exists mid, s = mid ++ rest /\ eqIgnoreCase mid pat = true.
Proof.
  revert s; induction pat as [|p pat IH]; intros s; simpl.
  - split.
    + intros H; injection H as ->. now exists EmptyString.
    + intros ([|x mid] & -> & H); simpl in H; [reflexivity|discriminate].
  - destruct s as [|c s].
    + split; [discriminate|].
      intros ([|x mid] & Hs & H); simpl in *; discriminate.
    + destruct (eqCharCI p c) eqn:E.
      * rewrite IH. split.
        -- intros (mid & -> & H). exists (String c mid). simpl.
           rewrite eqCharCI_sym, E, H. now split.
        -- intros ([|x mid] & Hs & H); simpl in *; [discriminate|].
           injection Hs as -> ->.
           apply andb_true_iff in H as [_ H]. now exists mid.
      * split; [discriminate|].
        intros ([|x mid] & Hs & H); simpl in *; [discriminate|].
        injection Hs as -> ->.
        rewrite eqCharCI_sym, E in H. discriminate.
Qed.

Lemma plusRun_Some (p : ascii -> bool) (s : string) :
  plusRun p s <> None <-> exists c t, s = String c t /\ p c = true.
Proof.
  unfold plusRun. destruct s as [|c t]; simpl.
  - split; [congruence|]. intros (c & t & H & _); discriminate.
  - destruct (p c) eqn:E; split; try congruence.
    + intros _. now exists c, t.
    + intros (c' & t' & H & Hp). injection H as -> ->. congruence.
Qed.

Lemma idMatchAt_None (s : string) :
  idMatchAt s = None <->
  forall d post, s = "id: " ++ String d post -> isDigit d = false.
Proof.
  unfold idMatchAt.
  destruct (stripPrefix "id: " s) as [rest|] eqn:E.
  - apply stripPrefix_Some in E. subst s. split.
    + intros H d post Hs.
      simpl in Hs. injection Hs as Hs. subst rest.
      destruct (isDigit d) eqn:Ed; [|reflexivity].
      exfalso. apply (proj2 (plusRun_Some isDigit (String d post))); [|exact H].
      now exists d, post.
    + intros H.
      destruct (plusRun isDigit rest) eqn:Er; [|reflexivity].
      exfalso.
      assert (Hne : plusRun isDigit rest <> None) by congruence.
      apply plusRun_Some in Hne as (c & t & -> & Hc).
      rewrite (H c t eq_refl) in Hc. discriminate.
  - split; [|reflexivity].
    intros _ d post Hs. exfalso.
    assert (H : stripPrefix "id: " s = Some (String d post))
      by now apply stripPrefix_Some.
    congruence.
Qed.

Lemma search_idMatchAt_None (stderr : string) :
  search idMatchAt (toLowerCase stderr) = None <-> noIdDetail stderr.
Proof.
  rewrite search_None. unfold noIdDetail. split.
  - intros H pre d post Hs.
    apply (proj1 (idMatchAt_None _) (H pre _ Hs) d post eq_refl).
  - intros H pre rest Hs. apply idMatchAt_None.
    intros d post ->. apply (H pre d post Hs).
Qed.

Lemma sepStarToken_Some (s : string) :
  sepStarToken s <> None <->
  exists seps d post,
    s = seps ++ String d post /\ allSeparators seps = true /\ isSpace d = false.
Proof.
  induction s as [|c t IH]; simpl.
  - split; [congruence|].
    intros ([|x seps] & d & post & H & _); discriminate.
  - assert (Hrun : plusRun (fun x => negb (isSpace x)) (String c t) <> None
                   <-> isSpace c = false).
    { rewrite plusRun_Some. split.
      - intros (c' & t' & H & Hc). injection H as -> ->.
        now apply negb_true_iff.
      - intros Hc. exists c, t. split; [reflexivity|now apply negb_true_iff]. }
    destruct (isSpace c || Ascii.eqb c ":") eqn:Esep.
    + destruct (sepStarToken t) as [tok|] eqn:Et.
      * split; [|congruence]. intros _.
        destruct (proj1 IH) as (seps & d & post & -> & Hs & Hd); [congruence|].
        exists (String c seps), d, post. simpl. rewrite Esep, Hs. now repeat split.
      * rewrite Hrun. split.
        -- intros Hc. exists EmptyString, c, t. now repeat split.
        -- intros ([|x seps] & d & post & H & Hs & Hd); simpl in *.
           ++ injection H as -> ->. exact Hd.
           ++ injection H as -> ->. exfalso.
              apply andb_true_iff in Hs as [_ Hs].
              apply (proj2 IH); [|reflexivity]. now exists seps, d, post.
    + rewrite Hrun.
      apply orb_false_iff in Esep as [Ec _]. split; [|now intros _].
      intros _. exists EmptyString, c, t. now repeat split.
Qed.

Lemma pathMatchAt_None (s : string) :
  pathMatchAt s = None <->
  forall word sep seps d post,
    s = word ++ String sep (seps ++ String d post) ->
    eqIgnoreCase word "path" = true ->
    allSeparators (String sep seps) = true ->
    isSpace d = true.
Proof.
  unfold pathMatchAt. split.
  - intros H word sep seps d post -> Hw Hs.
    assert (E : stripPrefixCI "path" (word ++ String sep (seps ++ String d post))
                = Some (String sep (seps ++ String d post))).
    { apply stripPrefixCI_Some. now exists word. }
    rewrite E in H. simpl in Hs.
    apply andb_true_iff in Hs as [Hsep Hs]. rewrite Hsep in H.
    destruct (isSpace d) eqn:Ed; [reflexivity|]. exfalso.
    apply (proj2 (sepStarToken_Some (seps ++ String d post))); [|exact H].
    now exists seps, d, post.
  - intros H.
    destruct (stripPrefixCI "path" s) as [[|c t]|] eqn:E; try reflexivity.
    apply stripPrefixCI_Some in E as (word & -> & Hw).
    destruct (isSpace c || Ascii.eqb c ":") eqn:Ec; [|reflexivity].
    destruct (sepStarToken t) as [tok|] eqn:Et; [|reflexivity]. exfalso.
    destruct (proj1 (sepStarToken_Some t)) as (seps & d & post & -> & Hs & Hd);
      [congruence|].
    assert (Hd' : isSpace d = true).
    { apply (H word c seps d post eq_refl Hw). simpl. now rewrite Ec, Hs. }
    congruence.
Qed.

Lemma search_pathMatchAt_None (stderr : string) :
  search pathMatchAt (toLowerCase stderr) = None <-> noPathDetail stderr.
Proof.
  rewrite search_None. unfold noPathDetail. split.
  - intros H pre word sep seps d post Hs Hw Hsep.
    apply (proj1 (pathMatchAt_None _) (H pre _ Hs)
             word sep seps d post eq_refl Hw Hsep).
  - intros H pre rest Hs. apply pathMatchAt_None.
    intros word sep seps d post ->. apply (H pre word sep seps d post Hs).
Qed.

(** ** The classifier on sample texts *)

Example determineErrorType_book :
  determineErrorType (Error "x") "remove" "No book with id: 42 in library"
  = BookNotFoundError (IdNumber 42) "remove" "No book with id: 42 in library".
Proof. reflexivity. Qed.

Example determineErrorType_book_unknown :
  determineErrorType (Error "x") "remove" "Book not found"
  = BookNotFoundError (IdString "unknown") "remove" "Book not found".
Proof. reflexivity. Qed.

Example determineErrorType_library :
  determineErrorType (Error "x") "list" "Cannot find library at PATH: /tmp/Lib here"
  = LibraryNotFoundError "/tmp/lib" "list" "Cannot find library at PATH: /tmp/Lib here".
Proof. reflexivity. Qed.

Example determineErrorType_library_backtrack :
  determineErrorType (Error "x") "list" "library not found, path::"
  = LibraryNotFoundError ":" "list" "library not found, path::".
Proof. reflexivity. Qed.

Example determineErrorType_tool :
  determineErrorType (Error "x") "list" "sh: calibredb: not found"
  = CalibreNotFoundError "calibredb executable not found".
Proof. reflexivity. Qed.

Example determineErrorType_generic :
  determineErrorType (Error "x") "list" "Traceback"
  = CalibreError "Error executing calibredb list" "list" "Traceback".
Proof. reflexivity. Qed.

Example determineErrorType_upper_case :
  determineErrorType (Error "x") "remove" "NO BOOK WITH ID: 007x"
  = BookNotFoundError (IdNumber 7) "remove" "NO BOOK WITH ID: 007x".
Proof. reflexivity. Qed.

(** ** The classifier *)

Lemma errorCase_determineErrorType (error : JsError) (command stderr : string) :
  errorCase (determineErrorType error command stderr)
  = if mentionsBook (toLowerCase stderr) then NotFound
    else if mentionsLibrary (toLowerCase stderr) then ResourceNotFound
    else if mentionsExecutable (toLowerCase stderr) then ToolMissing
    else GenericFailure.
Proof.
  unfold determineErrorType.
  destruct (mentionsBook _); [reflexivity|].
  destruct (mentionsLibrary _); [reflexivity|].
  destruct (mentionsExecutable _); reflexivity.
Qed.

Lemma not_true_phrase (b : bool) (P : Prop) :
  (b = true <-> P) -> ~ P -> b = false.
Proof. intros H HP. destruct b; [|reflexivity]. exfalso. now apply HP, H. Qed.

(** C2: a text with a book-not-found phrase, in any case, is classified as
    NotFound whatever else it contains; the phrases are tried in the fixed
    order book, library, executable, and GenericFailure is what is left. *)
Theorem determineErrorType_match_order
  (error : JsError) (command stderr : string) :
  (bookPhrase stderr ->
   errorCase (determineErrorType error command stderr) = NotFound)
  /\ (~ bookPhrase stderr -> libraryPhrase stderr ->
      errorCase (determineErrorType error command stderr) = ResourceNotFound)
  /\ (~ bookPhrase stderr -> ~ libraryPhrase stderr ->
      executablePhrase stderr ->
      errorCase (determineErrorType error command stderr) = ToolMissing)
  /\ (~ bookPhrase stderr -> ~ libraryPhrase stderr ->
      ~ executablePhrase stderr ->
      errorCase (determineErrorType error command stderr) = GenericFailure).
Proof.
  rewrite errorCase_determineErrorType.
  repeat split.
  - intros Hb. apply mentionsBook_spec in Hb. now rewrite Hb.
  - intros Hb Hl.
    rewrite (not_true_phrase _ _ (mentionsBook_spec stderr) Hb).
    apply mentionsLibrary_spec in Hl. now rewrite Hl.
  - intros Hb Hl He.
    rewrite (not_true_phrase _ _ (mentionsBook_spec stderr) Hb).
    rewrite (not_true_phrase _ _ (mentionsLibrary_spec stderr) Hl).
    apply mentionsExecutable_spec in He. now rewrite He.
  - intros Hb Hl He.
    rewrite (not_true_phrase _ _ (mentionsBook_spec stderr) Hb).
    rewrite (not_true_phrase _ _ (mentionsLibrary_spec stderr) Hl).
    now rewrite (not_true_phrase _ _ (mentionsExecutable_spec stderr) He).
Qed.

Lemma determineErrorType_match_order_witness :
  bookPhrase "calibredb: not found; Library not found at path: /x; No Book With ID 7"
  /\ errorCase
       (determineErrorType (Error "exit 1") "remove"
          "calibredb: not found; Library not found at path: /x; No Book With ID 7")
     = NotFound.
Proof.
  assert (H : bookPhrase
    "calibredb: not found; Library not found at path: /x; No Book With ID 7").
  { left.
    exists "calibredb: not found; Library not found at path: /x; ",
      "No Book With ID", " 7".
    split; reflexivity. }
  split; [exact H|].
  exact (proj1 (determineErrorType_match_order (Error "exit 1") "remove" _) H).
Defined.

(** C7: the classifier always returns one of the four classified errors,
    and when the phrase of a book or of a library is there but the id or the
    path cannot be extracted, the detail of the error is "unknown". *)
Theorem determineErrorType_total_with_sentinel
  (error : JsError) (command stderr : string) :
  In (errorCase (determineErrorType error command stderr))
     [GenericFailure; NotFound; ResourceNotFound; ToolMissing]
  /\ (bookPhrase stderr -> noIdDetail stderr ->
      determineErrorType error command stderr
      = BookNotFoundError (IdString "unknown") command stderr)
  /\ (~ bookPhrase stderr -> libraryPhrase stderr -> noPathDetail stderr ->
      determineErrorType error command stderr
      = LibraryNotFoundError "unknown" command stderr).
Proof.
  repeat split.
  - rewrite errorCase_determineErrorType.
    destruct (mentionsBook _); [simpl; tauto|].
    destruct (mentionsLibrary _); [simpl; tauto|].
    destruct (mentionsExecutable _); simpl; tauto.
  - intros Hb Hid.
    apply mentionsBook_spec in Hb. apply search_idMatchAt_None in Hid.
    unfold determineErrorType. now rewrite Hb, Hid.
  - intros Hb Hl Hpath.
    apply (not_true_phrase _ _ (mentionsBook_spec stderr)) in Hb.
    apply mentionsLibrary_spec in Hl. apply search_pathMatchAt_None in Hpath.
    unfold determineErrorType. now rewrite Hb, Hl, Hpath.
Qed.

Lemma determineErrorType_total_with_sentinel_witness :
  bookPhrase "Book not found (id 12)" /\ noIdDetail "Book not found (id 12)"
  /\ determineErrorType (Error "exit 1") "remove" "Book not found (id 12)"
     = BookNotFoundError (IdString "unknown") "remove" "Book not found (id 12)".
Proof.
  assert (Hb : bookPhrase "Book not found (id 12)").
  { right. exists EmptyString, "Book not found", " (id 12)". split; reflexivity. }
  assert (Hid : noIdDetail "Book not found (id 12)").
  { apply search_idMatchAt_None. reflexivity. }
  split; [exact Hb|]. split; [exact Hid|].
  exact (proj1 (proj2 (determineErrorType_total_with_sentinel
                         (Error "exit 1") "remove" _)) Hb Hid).
Defined.

(** C10: the classification does not depend on the error it is given: two
    errors with the same command and the same captured text are classified
    as the same error, field by field. *)
Theorem determineErrorType_ignores_error
  (e1 e2 : JsError) (command stderr : string) :
  determineErrorType e1 command stderr = determineErrorType e2 command stderr.
Proof. reflexivity. Qed.

(** ** The confirmation line of [add] *)

Lemma stripPrefixCI_app (p q s : string) :
  stripPrefixCI (p ++ q) s
  = match stripPrefixCI p s with
    | Some r => stripPrefixCI q r
    | None => None
    end.
Proof.
  revert s; induction p as [|a p IH]; intros s; simpl; [reflexivity|].
  destruct s as [|c s]; [reflexivity|].
  destruct (eqCharCI a c); [apply IH|reflexivity].
Qed.

Lemma addedMatchAt_alt (s : string) :
  addedMatchAt s
  = match phraseThenLine "Added book ids: " s with
    | Some ids => Some ids
    | None => phraseThenLine "Added book id: " s
    end.
Proof.
  unfold addedMatchAt, phraseThenLine.
  change "Added book ids: " with ("Added book id" ++ "s: ").
  change "Added book id: " with ("Added book id" ++ ": ").
  rewrite !stripPrefixCI_app.
  destruct (stripPrefixCI "Added book id" s) as [[|c r]|]; try reflexivity.
  cbn [stripPrefixCI].
  destruct (eqCharCI "s" c); reflexivity.
Qed.

Lemma phraseThenLine_None (phrase s : string) :
  phraseThenLine phrase s = None <->
  forall words c post,
    s = words ++ String c post -> eqIgnoreCase words phrase = true ->
    isLineTerminator c = true.
Proof.
  unfold phraseThenLine. split.
  - intros H words c post -> Hw.
    assert (E : stripPrefixCI phrase (words ++ String c post)
                = Some (String c post)).
    { apply stripPrefixCI_Some. now exists words. }
    rewrite E in H.
    destruct (isLineTerminator c) eqn:Ec; [reflexivity|]. exfalso.
    apply (proj2 (plusRun_Some (fun x => negb (isLineTerminator x))
                    (String c post))); [|exact H].
    exists c, post. now rewrite Ec.
  - intros H.
    destruct (stripPrefixCI phrase s) as [ids|] eqn:E; [|reflexivity].
    apply stripPrefixCI_Some in E as (words & -> & Hw).
    destruct (plusRun _ ids) eqn:Er; [|reflexivity]. exfalso.
    assert (Hne : plusRun (fun x => negb (isLineTerminator x)) ids <> None)
      by congruence.
    apply plusRun_Some in Hne as (c & post & -> & Hc).
    rewrite (H words c post eq_refl Hw) in Hc. discriminate.
Qed.

Lemma search_addedMatchAt_None (output : string) :
  search addedMatchAt output = None <-> ~ confirmationLine output.
Proof.
  rewrite search_None. unfold confirmationLine. split.
  - intros H (pre & words & c & post & Hs & Hw & Hc).
    specialize (H pre _ Hs). rewrite addedMatchAt_alt in H.
    destruct (phraseThenLine "Added book ids: " _) eqn:E1; [discriminate|].
    destruct Hw as [Hw|Hw].
    + rewrite (proj1 (phraseThenLine_None _ _) H words c post eq_refl Hw) in Hc.
      discriminate.
    + rewrite (proj1 (phraseThenLine_None _ _) E1 words c post eq_refl Hw) in Hc.
      discriminate.
  - intros H pre rest Hs. rewrite addedMatchAt_alt.
    assert (Hno : forall phrase,
               phrase = "Added book id: " \/ phrase = "Added book ids: " ->
               phraseThenLine phrase rest = None).
    { intros phrase Hp. apply phraseThenLine_None.
      intros words c post -> Hw.
      destruct (isLineTerminator c) eqn:Ec; [reflexivity|]. exfalso.
      apply H. exists pre, words, c, post.
      split; [exact Hs|]. split; [|exact Ec].
      destruct Hp as [-> | ->]; [now left|now right]. }
    rewrite (Hno "Added book ids: ") by now right.
    apply Hno. now left.
Qed.

(** ** The exec layer *)

Lemma execArgs_shape (command : string) (args : list string)
  (options : CalibreOptions) :
  execArgs command args options
  = ([command] ++ libraryPathArgs options ++ forMachineArgs options ++ args)%list.
Proof.
  unfold execArgs, libraryPathArgs, forMachineArgs.
  destruct (libraryPath options) as [p|]; [destruct (truthy p)|];
    destruct (flagSet (forMachine options)); reflexivity.
Qed.

Lemma execCalibre_run (tool : Tool) (command : string) (args : list string)
  (options : CalibreOptions) (log : list Spawn) :
  execCalibre tool command args options log
  = let r := tool log (binOf options) (execArgs command args options) in
    (if (exitCode r =? 0)%Z then Resolved (stdout r)
     else Rejected
            (CalibreError
               ("Failed to execute calibredb " ++ command ++ ": " ++ message r)
               command
               (orElse (stderr r)
                  (orElse (stdout r) "No error output available"))),
     (log ++ [(binOf options, execArgs command args options)])%list).
Proof.
  unfold execCalibre, tryCatch, await, execa, resolve, throw. simpl.
  destruct (exitCode _ =? 0)%Z; reflexivity.
Qed.

Lemma execCalibreJson_run (tool : Tool) (Json : Type)
  (JSON_parse : string -> option Json) (command : string)
  (args : list string) (options : CalibreOptions) (log : list Spawn) :
  execCalibreJson tool Json JSON_parse command args options log
  = let argv := execArgs command args (withForMachine options) in
    let r := tool log (binOf options) argv in
    (if (exitCode r =? 0)%Z then
       match JSON_parse (stdout r) with
       | Some v => Resolved v
       | None =>
           Rejected
             (CalibreError
                ("Failed to parse JSON output from calibredb " ++ command)
                command (stdout r))
       end
     else Rejected
            (CalibreError
               ("Failed to execute calibredb " ++ command ++ ": " ++ message r)
               command
               (orElse (stderr r)
                  (orElse (stdout r) "No error output available"))),
     (log ++ [(binOf options, argv)])%list).
Proof.
  unfold execCalibreJson, await. rewrite execCalibre_run. simpl.
  change (binOf (withForMachine options)) with (binOf options).
  destruct (exitCode _ =? 0)%Z; [|reflexivity].
  destruct (JSON_parse _); reflexivity.
Qed.

Lemma Historical_execCalibre_run (tool : Tool) (command : string)
  (args : list string) (options : CalibreOptions) (log : list Spawn) :
  Historical.execCalibre tool command args options log
  = let r := tool log (binOf options)
               (Historical.execArgs command args options) in
    (if (exitCode r =? 0)%Z then Resolved (stdout r)
     else Rejected
            (CalibreError
               ("Failed to execute calibredb " ++ command ++ ": " ++ message r)
               command
               (orElse (stderr r)
                  (orElse (stdout r) "No error output available"))),
     (log ++ [(binOf options, Historical.execArgs command args options)])%list).
Proof.
  unfold Historical.execCalibre, tryCatch, await, execa, resolve, throw. simpl.
  destruct (exitCode _ =? 0)%Z; reflexivity.
Qed.

Lemma Historical_execArgs_shape (command : string) (args : list string)
  (options : CalibreOptions) :
  Historical.execArgs command args options
  = ([command] ++ libraryPathArgs options ++ args)%list.
Proof.
  unfold Historical.execArgs, libraryPathArgs.
  destruct (libraryPath options) as [p|]; [destruct (truthy p)|]; reflexivity.
Qed.

(** C3: when the child process exits with a non-zero code, [execCalibre]
    rejects with an error that carries the captured standard error, or the
    standard output when standard error is empty, or the placeholder
    "No error output available" when both are empty. *)
Theorem execCalibre_failure_text (tool : Tool) (command : string)
  (args : list string) (options : CalibreOptions) (log : list Spawn) :
  let r := tool log (binOf options) (execArgs command args options) in
  exitCode r <> 0%Z ->
  exists message text,
    fst (execCalibre tool command args options log)
    = Rejected (CalibreError message command text)
    /\ (stderr r <> EmptyString -> text = stderr r)
    /\ (stderr r = EmptyString -> stdout r <> EmptyString -> text = stdout r)
    /\ (stderr r = EmptyString -> stdout r = EmptyString -> text = "No error output available").
Proof.
  intros r Hexit. rewrite execCalibre_run. fold r. simpl.
  apply Z.eqb_neq in Hexit. rewrite Hexit.
  eexists; eexists. split; [reflexivity|].
  unfold orElse. split; [|split].
  - intros H. destruct (stderr r); [congruence|reflexivity].
  - intros -> H. simpl. destruct (stdout r); [congruence|reflexivity].
  - intros -> ->. reflexivity.
Qed.

Lemma execCalibre_failure_text_witness :
  exists message text,
    fst (execCalibre (constTool (exitsWith 1 "Traceback (most recent call last)" EmptyString))
           "remove" ["7"] noOptions [])
    = Rejected (CalibreError message "remove" text)
    /\ text = "Traceback (most recent call last)".
Proof.
  destruct (execCalibre_failure_text
              (constTool (exitsWith 1 "Traceback (most recent call last)" EmptyString))
              "remove" ["7"] noOptions [])
    as (message & text & H & _ & Hout & _).
  - simpl. lia.
  - exists message, text. split; [exact H|].
    apply Hout; [reflexivity|discriminate].
Defined.

(** C4: whatever the options say about [forMachine], [execCalibreJson]
    launches the tool with [--for-machine] in its argument vector, and when
    the output of a successful run is not JSON it rejects with an error
    carrying the command and the raw output; it resolves only with a parsed
    value. *)
Theorem execCalibreJson_forces_forMachine (tool : Tool) (Json : Type)
  (JSON_parse : string -> option Json) (command : string)
  (args : list string) (options : CalibreOptions) (log : list Spawn) :
  let argv :=
    ([command] ++ libraryPathArgs options ++ ["--for-machine"] ++ args)%list in
  let r := tool log (binOf options) argv in
  snd (execCalibreJson tool Json JSON_parse command args options log)
  = (log ++ [(binOf options, argv)])%list
  /\ (exitCode r = 0%Z -> JSON_parse (stdout r) = None ->
      fst (execCalibreJson tool Json JSON_parse command args options log)
      = Rejected
          (CalibreError
             ("Failed to parse JSON output from calibredb " ++ command)
             command (stdout r)))
  /\ (forall v,
        fst (execCalibreJson tool Json JSON_parse command args options log)
        = Resolved v ->
        exitCode r = 0%Z /\ JSON_parse (stdout r) = Some v).
Proof.
  intros argv r. rewrite execCalibreJson_run.
  assert (Eargv : execArgs command args (withForMachine options) = argv).
  { rewrite execArgs_shape. reflexivity. }
  cbv zeta. rewrite Eargv.
  change (tool log (binOf options) argv) with r. cbn [fst snd].
  split; [reflexivity|]. split.
  - intros Hexit Hparse. rewrite Hexit, Hparse. reflexivity.
  - intros v H.
    destruct (exitCode r =? 0)%Z eqn:E; [|discriminate].
    split; [now apply Z.eqb_eq|].
    destruct (JSON_parse (stdout r)); congruence.
Qed.

Lemma execCalibreJson_forces_forMachine_witness :
  fst (execCalibreJson (constTool (exitsWith 0 "not json" EmptyString)) unit
         (fun _ => None) "list" ["--limit"; "1"] noOptions [])
  = Rejected
      (CalibreError "Failed to parse JSON output from calibredb list"
         "list" "not json").
Proof.
  apply (proj1 (proj2 (execCalibreJson_forces_forMachine
                         (constTool (exitsWith 0 "not json" EmptyString)) unit
                         (fun _ => None) "list" ["--limit"; "1"]
                         noOptions []))); reflexivity.
Defined.

(** C6, as the specification words it, fails when [libraryPath] is the
    empty string: the option is present and no pair is added. *)
Lemma execArgs_empty_libraryPath :
  execArgs "list" ["--limit"; "1"] emptyLibraryPath
  <> specifiedExecArgs "list" ["--limit"; "1"] emptyLibraryPath.
Proof. discriminate. Qed.

(** The vector [execArgs] in closed form. *)
Lemma execArgs_exact (command : string) (args : list string)
  (options : CalibreOptions) :
  execArgs command args options
  = ([command]
     ++ (match libraryPath options with
         | Some p => if String.eqb p EmptyString then [] else ["--library-path"; p]
         | None => []
         end)
     ++ (match forMachine options with
         | Some true => ["--for-machine"]
         | _ => []
         end)
     ++ args)%list.
Proof.
  rewrite execArgs_shape. unfold libraryPathArgs, forMachineArgs, flagSet.
  destruct (libraryPath options) as [[|c p]|];
    destruct (forMachine options) as [[|]|]; reflexivity.
Qed.

(** C6, amended: the process [execCalibre] launches, whether it then
    succeeds or fails, gets exactly this argument vector: the command; then
    the pair [--library-path <value>] if and only if [libraryPath] is
    present and not the empty string, and nothing otherwise; then
    [--for-machine] if and only if [forMachine] is true, and nothing
    otherwise; then the caller's arguments in their order. *)
Theorem execCalibre_argument_vector (tool : Tool) (command : string)
  (args : list string) (options : CalibreOptions) (log : list Spawn) :
  exists pair flag,
    snd (execCalibre tool command args options log)
    = (log ++ [(binOf options, [command] ++ pair ++ flag ++ args)])%list
    /\ (forall p,
          pair = ["--library-path"; p]
          <-> libraryPath options = Some p /\ p <> EmptyString)
    /\ (pair = []
        <-> libraryPath options = None
            \/ libraryPath options = Some EmptyString)
    /\ (flag = ["--for-machine"] <-> forMachine options = Some true)
    /\ (flag = [] <-> forMachine options <> Some true).
Proof.
  exists (libraryPathArgs options), (forMachineArgs options).
  split.
  { rewrite execCalibre_run. cbv zeta. cbn [snd].
    now rewrite execArgs_shape. }
  unfold libraryPathArgs, forMachineArgs, flagSet.
  split; [|split; [|split]].
  - intros p. destruct (libraryPath options) as [[|c q]|]; cbn [truthy].
    + split; [discriminate|]. intros [H Hne]. injection H as <-. congruence.
    + split.
      * intros H. injection H as <-. split; [reflexivity|discriminate].
      * intros [H _]. injection H as <-. reflexivity.
    + split; [discriminate|]. intros [H _]. discriminate.
  - destruct (libraryPath options) as [[|c q]|]; cbn [truthy].
    + split; [now right|reflexivity].
    + split; [discriminate|]. intros [H|H]; discriminate.
    + split; [now left|reflexivity].
  - destruct (forMachine options) as [[|]|]; split;
      try discriminate; reflexivity.
  - destruct (forMachine options) as [[|]|]; split;
      try discriminate; try reflexivity; try congruence.
Qed.

Lemma execCalibre_argument_vector_witness :
  exists pair flag,
    snd (execCalibre (constTool (exitsWith 1 EmptyString "boom")) "list"
           ["--limit"; "1"] libraryOptions [])
    = [("calibredb", (["list"] ++ pair ++ flag ++ ["--limit"; "1"])%list)]
    /\ pair = ["--library-path"; "/tmp/library"]
    /\ flag = [].
Proof.
  destruct (execCalibre_argument_vector
              (constTool (exitsWith 1 EmptyString "boom")) "list"
              ["--limit"; "1"] libraryOptions [])
    as (pair & flag & Hlog & Hpair & _ & _ & Hflag).
  exists pair, flag. split; [exact Hlog|]. split.
  - apply Hpair. split; [reflexivity|discriminate].
  - apply Hflag. discriminate.
Defined.

(** C8: without a title [addEmptyBook] rejects with the plain error
    "Title is required for an empty book" and spawns nothing; no rejection
    of [add], which is where processes fail, is that error. *)
Theorem addEmptyBook_requires_title (tool : Tool) (options : AddOptions)
  (log : list Spawn) :
  title options = None ->
  addEmptyBook tool options log
  = (Rejected (Error "Title is required for an empty book"), log)
  /\ (forall paths options' log' e,
        fst (add tool paths options' log') = Rejected e ->
        e <> Error "Title is required for an empty book").
Proof.
  intros Htitle. split.
  - unfold addEmptyBook, textSet. rewrite Htitle. reflexivity.
  - intros paths options' log' e H ->.
    unfold add in H.
    destruct (flagSet (stream (calibre options'))).
    + unfold await, execCalibreStream, execa, resolve in H. simpl in H.
      destruct (exitCode _ =? 0)%Z; simpl in H; discriminate.
    + unfold await in H. rewrite execCalibre_run in H. simpl in H.
      destruct (exitCode _ =? 0)%Z; simpl in H; [|discriminate].
      destruct (search addedMatchAt _); discriminate.
Qed.

Lemma addEmptyBook_requires_title_witness :
  addEmptyBook (constTool (exitsWith 0 "Added book ids: 1" EmptyString))
    authorOnlyOptions []
  = (Rejected (Error "Title is required for an empty book"), []).
Proof.
  apply (proj1 (addEmptyBook_requires_title
                  (constTool (exitsWith 0 "Added book ids: 1" EmptyString))
                  authorOnlyOptions [] eq_refl)).
Defined.

(** C5: a successful, non-streaming [add] whose output has no confirmation
    line resolves with no ids; a failed one is rejected by [execCalibre]
    before the pattern is looked at. *)
Theorem add_without_confirmation (tool : Tool) (paths : list string)
  (options : AddOptions) (log : list Spawn) :
  let r := tool log (binOf (calibre options))
             (execArgs "add" (addArgs paths options) (calibre options)) in
  flagSet (stream (calibre options)) = false ->
  (exitCode r = 0%Z -> ~ confirmationLine (stdout r) ->
   fst (add tool paths options log) = Resolved (Ids []))
  /\ (exitCode r <> 0%Z ->
      exists message text,
        fst (add tool paths options log)
        = Rejected (CalibreError message "add" text)).
Proof.
  intros r Hstream. unfold add. rewrite Hstream.
  unfold await. rewrite execCalibre_run. cbv zeta.
  change (tool log (binOf (calibre options))
            (execArgs "add" (addArgs paths options) (calibre options))) with r.
  split.
  - intros Hexit Hno. rewrite Hexit. simpl.
    apply search_addedMatchAt_None in Hno. rewrite Hno. reflexivity.
  - intros Hexit. apply Z.eqb_neq in Hexit. rewrite Hexit. simpl.
    eexists; eexists; reflexivity.
Qed.

Lemma add_without_confirmation_witness :
  fst (add (constTool (exitsWith 0 "Skipped 1 duplicate book" EmptyString))
         ["book.epub"] noAddOptions [])
  = Resolved (Ids []).
Proof.
  apply (proj1 (add_without_confirmation
                  (constTool (exitsWith 0 "Skipped 1 duplicate book" EmptyString))
                  ["book.epub"] noAddOptions [] eq_refl)).
  - reflexivity.
  - apply search_addedMatchAt_None. reflexivity.
Defined.

Example add_with_confirmation :
  fst (add (constTool (exitsWith 0 "Added book ids: 3, 4,x, 5" EmptyString))
         ["a.epub"; "b.epub"] noAddOptions [])
  = Resolved (Ids [3; 4; 5]%Z).
Proof. reflexivity. Qed.

(** ** The two revisions of the exec layer *)

Lemma Historical_execCalibreJson_log (tool : Tool) (Json : Type)
  (JSON_parse : string -> option Json) (command : string)
  (args : list string) (options : CalibreOptions) (log : list Spawn) :
  snd (Historical.execCalibreJson tool Json JSON_parse command args options log)
  = (log ++ [(binOf options,
              Historical.execArgs command (args ++ ["--for-machine"]) options)])%list.
Proof.
  unfold Historical.execCalibreJson, await.
  rewrite Historical_execCalibre_run. cbv zeta.
  destruct (exitCode _ =? 0)%Z; [|reflexivity].
  destruct (JSON_parse _); reflexivity.
Qed.

Lemma last_map_snd_app (log : list Spawn) (x : Spawn) :
  last (map snd (log ++ [x])%list) [] = snd x.
Proof. rewrite map_app. simpl. apply last_last. Qed.

(** C9, as stated, fails: with arguments of the caller's, the two
    revisions of [execCalibreJson] put [--for-machine] in different
    places. *)
Lemma exec_revisions_differ :
  launchedWith
    (execCalibreJson (constTool (exitsWith 0 "[]" EmptyString)) unit
       (fun _ => Some tt) "list" ["--limit"; "1"] noOptions) []
  <> launchedWith
       (Historical.execCalibreJson (constTool (exitsWith 0 "[]" EmptyString)) unit
          (fun _ => Some tt) "list" ["--limit"; "1"] noOptions) [].
Proof. vm_compute. discriminate. Qed.

(** C9, amended: the two revisions of [execCalibre] agree when
    [forMachine] is not true; for [execCalibreJson] the current revision
    puts [--for-machine] before the caller's arguments and the earlier one
    after them, so the two argument vectors are permutations of each other
    and are equal when the caller passes no argument. *)
Theorem exec_revisions_compared (tool : Tool) (Json : Type)
  (JSON_parse : string -> option Json) (command : string)
  (args : list string) (options : CalibreOptions) (log : list Spawn) :
  let current :=
    launchedWith (execCalibreJson tool Json JSON_parse command args options)
      log in
  let earlier :=
    launchedWith
      (Historical.execCalibreJson tool Json JSON_parse command args options)
      log in
  (flagSet (forMachine options) = false ->
   execCalibre tool command args options log
   = Historical.execCalibre tool command args options log)
  /\ current
     = ([command] ++ libraryPathArgs options ++ ["--for-machine"] ++ args)%list
  /\ earlier
     = ([command] ++ libraryPathArgs options ++ args ++ ["--for-machine"])%list
  /\ Permutation current earlier
  /\ (args = [] -> current = earlier).
Proof.
  intros current earlier.
  assert (Hc : current
    = ([command] ++ libraryPathArgs options ++ ["--for-machine"] ++ args)%list).
  { unfold current, launchedWith. rewrite execCalibreJson_run. cbv zeta.
    cbn [snd]. rewrite last_map_snd_app. cbn [snd].
    rewrite execArgs_shape. reflexivity. }
  assert (He : earlier
    = ([command] ++ libraryPathArgs options ++ args ++ ["--for-machine"])%list).
  { unfold earlier, launchedWith. rewrite Historical_execCalibreJson_log.
    rewrite last_map_snd_app. cbn [snd].
    apply Historical_execArgs_shape. }
  split; [|split; [exact Hc|split; [exact He|split]]].
  - intros Hfm. rewrite execCalibre_run, Historical_execCalibre_run.
    assert (E : execArgs command args options
                = Historical.execArgs command args options).
    { rewrite execArgs_shape, Historical_execArgs_shape.
      unfold forMachineArgs. rewrite Hfm. reflexivity. }
    rewrite E. reflexivity.
  - rewrite Hc, He.
    apply Permutation_app_head, Permutation_app_head.
    apply Permutation_app_comm.
  - intros ->. rewrite Hc, He. reflexivity.
Qed.

Lemma exec_revisions_compared_witness :
  execCalibre (constTool (exitsWith 0 EmptyString EmptyString)) "remove" ["7"] noOptions []
  = Historical.execCalibre (constTool (exitsWith 0 EmptyString EmptyString)) "remove" ["7"]
      noOptions [].
Proof.
  apply (proj1 (exec_revisions_compared (constTool (exitsWith 0 EmptyString EmptyString)) unit
                  (fun _ => Some tt) "remove" ["7"] noOptions [])).
  reflexivity.
Defined.

(** ** Failures of the public operations *)

(** C1, as stated, fails on the streaming path: [add] with [stream: true]
    rejects with the error of [execa] itself, which is none of the
    classified errors. *)
Lemma add_streaming_failure_unclassified :
  fst (add (constTool (exitsWith 1 EmptyString "No book with id: 7")) ["book.epub"]
         streamingOptions [])
  = Rejected
      (ExecaError "Command failed with exit code 1" "No book with id: 7" EmptyString)
  /\ ~ classified
         (ExecaError "Command failed with exit code 1" "No book with id: 7" EmptyString).
Proof.
  split; [reflexivity|].
  unfold classified. simpl. intuition discriminate.
Qed.

(** The exec layer does not call the classifier: a text that
    [determineErrorType] classifies as NotFound still comes out of
    [execCalibre] as the base [CalibreError]. *)
Example execCalibre_does_not_classify :
  fst (execCalibre (constTool (exitsWith 1 EmptyString "No book with id: 7"))
         "remove" ["7"] noOptions [])
  = Rejected
      (CalibreError
         "Failed to execute calibredb remove: Command failed with exit code 1"
         "remove" "No book with id: 7")
  /\ determineErrorType
       (ExecaError "Command failed with exit code 1" "No book with id: 7" EmptyString)
       "remove" "No book with id: 7"
     = BookNotFoundError (IdNumber 7) "remove" "No book with id: 7".
Proof. split; reflexivity. Qed.

(** ** Characters and decimal numerals *)

Ltac each_char c := destruct c as [[|] [|] [|] [|] [|] [|] [|] [|]].

Lemma lowerChar_idem (c : ascii) : lowerChar (lowerChar c) = lowerChar c.
Proof. each_char c; reflexivity. Qed.

Lemma isSpace_lowerChar (c : ascii) : isSpace (lowerChar c) = isSpace c.
Proof. each_char c; reflexivity. Qed.

Lemma isDigit_lowerChar (c : ascii) : isDigit (lowerChar c) = isDigit c.
Proof. each_char c; reflexivity. Qed.

Lemma digit_plain (c : ascii) :
  isDigit c = true ->
  isSpace c = false /\ isLineTerminator c = false
  /\ Ascii.eqb c "," = false /\ lowerChar c = c.
Proof.
  each_char c; intros H; vm_compute in H; try discriminate H;
    repeat split; reflexivity.
Qed.

Lemma allChars_app (p : ascii -> bool) (a b : string) :
  allChars p (a ++ b) = allChars p a && allChars p b.
Proof.
  induction a as [|c a IH]; simpl; [reflexivity|].
  now rewrite IH, andb_assoc.
Qed.

Lemma allChars_impl (p q : ascii -> bool) (s : string) :
  (forall c, p c = true -> q c = true) ->
  allChars p s = true -> allChars q s = true.
Proof.
  intros Hpq. induction s as [|c s IH]; simpl; [reflexivity|].
  intros H. apply andb_true_iff in H as [Hc Hs].
  now rewrite (Hpq c Hc), IH.
Qed.

Lemma takeWhile_all (p : ascii -> bool) (s rest : string) :
  allChars p s = true -> takeWhile p (s ++ rest) = s ++ takeWhile p rest.
Proof.
  induction s as [|c s IH]; simpl; [reflexivity|].
  intros H. apply andb_true_iff in H as [Hc Hs].
  now rewrite Hc, IH.
Qed.

Lemma plusRun_all (p : ascii -> bool) (s rest : string) :
  allChars p s = true -> s <> EmptyString ->
  match rest with EmptyString => true | String c _ => negb (p c) end = true ->
  plusRun p (s ++ rest) = Some s.
Proof.
  intros Hs Hne Hrest. unfold plusRun. rewrite (takeWhile_all _ _ _ Hs).
  assert (E : takeWhile p rest = EmptyString).
  { destruct rest as [|c rest]; [reflexivity|]. simpl.
    apply negb_true_iff in Hrest. now rewrite Hrest. }
  rewrite E.
  assert (E' : s ++ EmptyString = s).
  { clear. induction s as [|c s IH]; simpl; [reflexivity|now rewrite IH]. }
  rewrite E'. destruct s; [congruence|reflexivity].
Qed.

Lemma string_of_uint_digits (d : Decimal.uint) :
  allChars isDigit (NilEmpty.string_of_uint d) = true.
Proof. induction d; simpl; try rewrite IHd; reflexivity. Qed.

Lemma digitsValue_string_of_uint (d : Decimal.uint) (acc : N) :
  digitsValue acc (NilEmpty.string_of_uint d)
  = (DecimalPos.Unsigned.of_lu (Decimal.rev d)
     + acc * 10 ^ DecimalPos.Unsigned.usize d)%N.
Proof.
  revert acc.
  induction d; intros acc; cbn [NilEmpty.string_of_uint digitsValue];
    [cbn; ring|..];
    unfold Decimal.rev; cbn [Decimal.revapp];
    rewrite (DecimalPos.Unsigned.of_lu_revapp d);
    rewrite IHd;
    cbn [DecimalPos.Unsigned.usize DecimalPos.Unsigned.of_lu];
    rewrite N.pow_succ_r';
    match goal with
    | |- context [(code ?c - 48)%N] =>
        let v := eval vm_compute in (code c - 48)%N in
        change (code c - 48)%N with v
    end;
    unfold Decimal.rev; ring.
Qed.

Lemma digitsValue_N_to_string (n : N) : digitsValue 0 (N_to_string n) = n.
Proof.
  unfold N_to_string. rewrite digitsValue_string_of_uint.
  rewrite N.mul_0_l, N.add_0_r.
  rewrite <- DecimalPos.Unsigned.of_uint_alt.
  apply DecimalN.Unsigned.of_to.
Qed.

Lemma N_to_string_digits (n : N) : allChars isDigit (N_to_string n) = true.
Proof. apply string_of_uint_digits. Qed.

Lemma N_to_string_nonempty (n : N) : N_to_string n <> EmptyString.
Proof.
  unfold N_to_string. destruct n as [|p]; [discriminate|].
  cbn [N.to_uint].
  pose proof (DecimalPos.Unsigned.to_uint_nonnil p) as H.
  destruct (Pos.to_uint p); [congruence|discriminate..].
Qed.

Lemma Z_to_string_nonneg (z : Z) :
  (0 <= z)%Z -> Z_to_string z = N_to_string (Z.to_N z).
Proof. destruct z; [reflexivity|reflexivity|lia]. Qed.

Lemma Z_to_string_neg (p : positive) :
  Z_to_string (Z.neg p) = String "-" (N_to_string (N.pos p)).
Proof. reflexivity. Qed.

Lemma append_empty_r (s : string) : s ++ EmptyString = s.
Proof. induction s as [|c s IH]; simpl; [reflexivity|now rewrite IH]. Qed.

Lemma append_assoc (a b c : string) : (a ++ b) ++ c = a ++ b ++ c.
Proof. induction a as [|x a IH]; simpl; [reflexivity|now rewrite IH]. Qed.

Lemma plusRun_digits (s : string) :
  allChars isDigit s = true -> s <> EmptyString ->
  plusRun isDigit s = Some s.
Proof.
  intros Hs Hne. rewrite <- (append_empty_r s) at 1.
  now apply plusRun_all.
Qed.

Lemma parseInt_digit_first (c : ascii) (t : string) :
  isDigit c = true ->
  parseInt (String c t)
  = match plusRun isDigit (String c t) with
    | Some digits => Some (Z.of_N (digitsValue 0 digits))
    | None => None
    end.
Proof.
  each_char c; intros H; vm_compute in H; try discriminate H; reflexivity.
Qed.

(** [parseInt(z.toString(), 10)] is [z]. *)
Lemma parseInt_Z_to_string (z : Z) : parseInt (Z_to_string z) = Some z.
Proof.
  destruct z as [|p|p].
  - reflexivity.
  - rewrite Z_to_string_nonneg by lia.
    pose proof (N_to_string_digits (Z.to_N (Z.pos p))) as Hd.
    pose proof (N_to_string_nonempty (Z.to_N (Z.pos p))) as Hne.
    pose proof (digitsValue_N_to_string (Z.to_N (Z.pos p))) as Hv.
    destruct (N_to_string (Z.to_N (Z.pos p))) as [|c t] eqn:E; [congruence|].
    assert (Hc : isDigit c = true).
    { simpl in Hd. now apply andb_true_iff in Hd as [Hc _]. }
    rewrite (parseInt_digit_first c t Hc), (plusRun_digits _ Hd Hne), Hv.
    reflexivity.
  - rewrite Z_to_string_neg.
    pose proof (N_to_string_digits (N.pos p)) as Hd.
    pose proof (N_to_string_nonempty (N.pos p)) as Hne.
    pose proof (digitsValue_N_to_string (N.pos p)) as Hv.
    unfold parseInt, trimStart. cbn [dropWhile].
    change (isSpace "-") with false. cbv iota.
    rewrite (plusRun_digits _ Hd Hne), Hv. reflexivity.
Qed.

(** ** Reading the ids of the confirmation line *)

Lemma splitComma_nonempty (s : string) : splitComma s <> [].
Proof.
  destruct s as [|c s]; simpl; [discriminate|].
  destruct (Ascii.eqb c ","); [discriminate|].
  destruct (splitComma s); discriminate.
Qed.

Lemma splitComma_app (a b : string) :
  splitComma (a ++ String "," b) = (splitComma a ++ splitComma b)%list.
Proof.
  induction a as [|c a IH]; [reflexivity|].
  cbn [append splitComma].
  destruct (Ascii.eqb c ","); [now rewrite IH|].
  rewrite IH.
  pose proof (splitComma_nonempty a) as Hne.
  destruct (splitComma a); [congruence|reflexivity].
Qed.

Lemma splitComma_no_comma (s : string) :
  allChars (fun c => negb (Ascii.eqb c ",")) s = true -> splitComma s = [s].
Proof.
  induction s as [|c s IH]; simpl; [reflexivity|].
  intros H. apply andb_true_iff in H as [Hc Hs].
  apply negb_true_iff in Hc. now rewrite Hc, (IH Hs).
Qed.

Lemma filterMap_app {A B : Type} (f : A -> option B) (xs ys : list A) :
  filterMap f (xs ++ ys)%list = (filterMap f xs ++ filterMap f ys)%list.
Proof.
  induction xs as [|x xs IH]; simpl; [reflexivity|].
  destruct (f x); simpl; now rewrite IH.
Qed.

Lemma parseIds_comma (a b : string) :
  parseIds (a ++ String "," b) = (parseIds a ++ parseIds b)%list.
Proof.
  unfold parseIds.
  now rewrite splitComma_app, map_app, filter_app, filterMap_app.
Qed.

Lemma parseIds_leading_space (s : string) :
  parseIds (String " " s) = parseIds s.
Proof.
  unfold parseIds. cbn [splitComma]. change (Ascii.eqb " " ",") with false.
  cbv iota.
  pose proof (splitComma_nonempty s) as Hne.
  destruct (splitComma s) as [|piece rest]; [congruence|].
  reflexivity.
Qed.

Lemma trimEnd_no_space (s : string) :
  allChars (fun c => negb (isSpace c)) s = true -> trimEnd s = s.
Proof.
  induction s as [|c s IH]; simpl; [reflexivity|].
  intros H. apply andb_true_iff in H as [Hc Hs].
  apply negb_true_iff in Hc. rewrite (IH Hs), Hc.
  destruct s; reflexivity.
Qed.

Lemma trim_no_space (s : string) :
  allChars (fun c => negb (isSpace c)) s = true -> trim s = s.
Proof.
  intros H. unfold trim, trimStart.
  assert (E : dropWhile isSpace s = s).
  { destruct s as [|c s]; [reflexivity|]. simpl in *.
    apply andb_true_iff in H as [Hc _].
    apply negb_true_iff in Hc. now rewrite Hc. }
  rewrite E. now apply trimEnd_no_space.
Qed.

Lemma numeralChar_plain (c : ascii) :
  numeralChar c = true ->
  isSpace c = false /\ isLineTerminator c = false /\ Ascii.eqb c "," = false.
Proof.
  each_char c; intros H; vm_compute in H; try discriminate H;
    repeat split; reflexivity.
Qed.

Lemma Z_to_string_numeral (z : Z) :
  allChars numeralChar (Z_to_string z) = true
  /\ Z_to_string z <> EmptyString.
Proof.
  assert (Hn : forall n, allChars numeralChar (N_to_string n) = true).
  { intros n. apply (allChars_impl isDigit); [|apply N_to_string_digits].
    intros c Hc. unfold numeralChar. now rewrite Hc. }
  destruct z as [|p|p].
  - split; [reflexivity|discriminate].
  - rewrite Z_to_string_nonneg by lia. split; [apply Hn|].
    apply N_to_string_nonempty.
  - rewrite Z_to_string_neg. split; [|discriminate].
    cbn [allChars]. now rewrite Hn.
Qed.

Lemma parseIds_Z_to_string (z : Z) : parseIds (Z_to_string z) = [z].
Proof.
  destruct (Z_to_string_numeral z) as [Hn Hne].
  unfold parseIds.
  rewrite splitComma_no_comma.
  2:{ apply (allChars_impl numeralChar); [|exact Hn].
      intros c Hc. apply numeralChar_plain in Hc as (_ & _ & Hc).
      now rewrite Hc. }
  cbn [map]. rewrite trim_no_space.
  2:{ apply (allChars_impl numeralChar); [|exact Hn].
      intros c Hc. apply numeralChar_plain in Hc as (Hc & _).
      now rewrite Hc. }
  cbn [filter].
  destruct (Z_to_string z) as [|c t] eqn:E; [congruence|].
  cbn [String.length Nat.eqb negb filterMap].
  rewrite <- E, parseInt_Z_to_string. reflexivity.
Qed.

Lemma parseIds_idsLine (ids : list Z) : parseIds (idsLine ids) = ids.
Proof.
  unfold idsLine.
  induction ids as [|z ids IH]; [reflexivity|].
  destruct ids as [|z' ids].
  - apply parseIds_Z_to_string.
  - cbn [map joinWith] in *.
    change (Z_to_string z ++ ", " ++ ?r)
      with (Z_to_string z ++ String "," (String " " r)).
    rewrite parseIds_comma, parseIds_leading_space, IH, parseIds_Z_to_string.
    reflexivity.
Qed.

Lemma idsLine_numeral (ids : list Z) :
  allChars (fun c => negb (isLineTerminator c)) (idsLine ids) = true.
Proof.
  unfold idsLine.
  assert (Hz : forall z,
             allChars (fun c => negb (isLineTerminator c)) (Z_to_string z)
             = true).
  { intros z. apply (allChars_impl numeralChar);
      [|apply Z_to_string_numeral].
    intros c Hc. apply numeralChar_plain in Hc as (_ & Hc & _).
    now rewrite Hc. }
  induction ids as [|z ids IH]; [reflexivity|].
  destruct ids as [|z' ids]; [apply Hz|].
  cbn [map joinWith] in *.
  rewrite !allChars_app, Hz, IH. reflexivity.
Qed.

Lemma idsLine_nonempty (ids : list Z) :
  ids <> [] -> idsLine ids <> EmptyString.
Proof.
  unfold idsLine. destruct ids as [|z ids]; [congruence|]. intros _.
  destruct (Z_to_string_numeral z) as [_ Hne].
  cbn [map joinWith]. destruct (map Z_to_string ids).
  - exact Hne.
  - destruct (Z_to_string z); [congruence|discriminate].
Qed.

Lemma search_here {A : Type} (matchAt : string -> option A) (s : string)
  (r : A) :
  matchAt s = Some r -> search matchAt s = Some r.
Proof. intros H. destruct s; simpl; now rewrite H. Qed.

Lemma search_addedMatchAt_idsLine (ids : list Z) (tail : string) :
  ids <> [] -> lineEnds tail = true ->
  search addedMatchAt ("Added book ids: " ++ idsLine ids ++ tail)
  = Some (idsLine ids).
Proof.
  intros Hne Htail.
  assert (E : addedMatchAt ("Added book ids: " ++ idsLine ids ++ tail)
              = Some (idsLine ids)).
  { rewrite addedMatchAt_alt. unfold phraseThenLine.
    assert (Es : stripPrefixCI "Added book ids: "
                   ("Added book ids: " ++ idsLine ids ++ tail)
                 = Some (idsLine ids ++ tail)).
    { apply stripPrefixCI_Some. exists "Added book ids: ". now split. }
    rewrite Es.
    rewrite (plusRun_all _ _ _ (idsLine_numeral ids) (idsLine_nonempty _ Hne)).
    - reflexivity.
    - destruct tail as [|c tail]; [reflexivity|]. simpl in Htail.
      now rewrite Htail. }
  now apply search_here.
Qed.

Lemma add_run (tool : Tool) (paths : list string) (options : AddOptions)
  (log : list Spawn) :
  add tool paths options log
  = let argv := execArgs "add" (addArgs paths options) (calibre options) in
    let r := tool log (binOf (calibre options)) argv in
    (if (exitCode r =? 0)%Z then
       Resolved
         (if flagSet (stream (calibre options)) then Streamed r
          else Ids match search addedMatchAt (stdout r) with
                   | Some ids => parseIds ids
                   | None => []
                   end)
     else
       Rejected
         (if flagSet (stream (calibre options))
          then ExecaError (message r) (stderr r) (stdout r)
          else CalibreError
                 ("Failed to execute calibredb add: " ++ message r) "add"
                 (orElse (stderr r)
                    (orElse (stdout r) "No error output available"))),
     (log ++ [(binOf (calibre options), argv)])%list).
Proof.
  unfold add. destruct (flagSet (stream (calibre options))).
  - unfold await, execCalibreStream, execa, resolve. cbv zeta.
    destruct (exitCode _ =? 0)%Z; reflexivity.
  - unfold await. rewrite execCalibre_run. cbv zeta.
    destruct (exitCode _ =? 0)%Z; [|reflexivity].
    cbn [fst snd]. destruct (search addedMatchAt _); reflexivity.
Qed.

(** X2: the ids are read token by token, in order: what stands before a
    comma and what stands after it are parsed independently, and a token
    without a comma gives the integer it starts with, once the white space
    around it is removed, or nothing when it starts with none. *)
Theorem parseIds_token_by_token (a b token : string) :
  parseIds (a ++ String "," b) = (parseIds a ++ parseIds b)%list
  /\ (allChars (fun c => negb (Ascii.eqb c ",")) token = true ->
      parseIds token
      = match parseInt (trim token) with
        | Some id => [id]
        | None => []
        end).
Proof.
  split; [apply parseIds_comma|].
  intros H. unfold parseIds. rewrite (splitComma_no_comma _ H).
  cbn [map filter].
  destruct (trim token) as [|c t]; reflexivity.
Qed.

Lemma parseIds_token_by_token_witness :
  parseIds " 12abc "
  = match parseInt (trim " 12abc ") with
    | Some id => [id]
    | None => []
    end.
Proof.
  apply (proj2 (parseIds_token_by_token EmptyString EmptyString " 12abc ")).
  reflexivity.
Defined.

(** X1: when a successful, non-streaming [add] prints the confirmation
    line [Added book ids: ] followed by safe integers in decimal, separated
    by a comma and a space, at the start of its output, [add] resolves with
    exactly those ids, in that order. *)
Theorem add_reads_back_ids (tool : Tool) (paths : list string)
  (options : AddOptions) (log : list Spawn) (ids : list Z) (tail : string) :
  let r := tool log (binOf (calibre options))
             (execArgs "add" (addArgs paths options) (calibre options)) in
  flagSet (stream (calibre options)) = false ->
  exitCode r = 0%Z ->
  ids <> [] -> forallb isSafeInteger ids = true ->
  lineEnds tail = true ->
  stdout r = "Added book ids: " ++ idsLine ids ++ tail ->
  fst (add tool paths options log) = Resolved (Ids ids).
Proof.
  intros r Hstream Hexit Hne _ Htail Hout. rewrite add_run. cbv zeta.
  change (tool log (binOf (calibre options))
            (execArgs "add" (addArgs paths options) (calibre options))) with r.
  rewrite Hexit, Hstream, Hout. cbn [Z.eqb fst].
  now rewrite (search_addedMatchAt_idsLine ids tail Hne Htail),
    parseIds_idsLine.
Qed.

Lemma add_reads_back_ids_witness :
  fst (add (constTool
              (exitsWith 0
                 ("Added book ids: " ++ idsLine [12; 7; 30]%Z
                  ++ String "010" "Done") EmptyString))
         ["a.epub"; "b.epub"; "c.epub"] noAddOptions [])
  = Resolved (Ids [12; 7; 30]%Z).
Proof.
  apply (add_reads_back_ids
           (constTool
              (exitsWith 0
                 ("Added book ids: " ++ idsLine [12; 7; 30]%Z
                  ++ String "010" "Done") EmptyString))
           ["a.epub"; "b.epub"; "c.epub"] noAddOptions []
           [12; 7; 30]%Z (String "010" "Done"));
    try reflexivity.
  discriminate.
Defined.

(** ** One process for each call *)

Lemma execArgs_command_first (command : string) (args : list string)
  (options : CalibreOptions) :
  exists rest, execArgs command args options = command :: rest.
Proof. rewrite execArgs_shape. eexists. reflexivity. Qed.

Lemma remove_run (tool : Tool) (bookIds : list Z) (options : RemoveOptions)
  (log : list Spawn) :
  remove tool bookIds options log
  = let argv := execArgs "remove" (removeArgs bookIds options)
                  (removeCalibre options) in
    let r := tool log (binOf (removeCalibre options)) argv in
    (if (exitCode r =? 0)%Z then Resolved tt
     else Rejected
            (CalibreError
               ("Failed to execute calibredb remove: " ++ message r) "remove"
               (orElse (stderr r)
                  (orElse (stdout r) "No error output available"))),
     (log ++ [(binOf (removeCalibre options), argv)])%list).
Proof.
  unfold remove, await. rewrite execCalibre_run. cbv zeta.
  destruct (exitCode _ =? 0)%Z; reflexivity.
Qed.

Lemma addBook_run (tool : Tool) (path : string) (options : AddOptions)
  (log : list Spawn) :
  addBook tool path options log
  = match add tool [path] options log with
    | (Resolved ids, log') => (Resolved (firstId ids), log')
    | (Rejected e, log') => (Rejected e, log')
    end.
Proof. reflexivity. Qed.

(** X3: every call of [remove], [removePermanently], [list], [add] and
    [addBook] launches exactly one process, the configured executable with
    the command name as its first argument, whether the call then resolves
    or rejects; [removeBySearch] launches none. *)
Theorem one_process_per_call (tool : Tool) (Json : Type)
  (JSON_parse : string -> option Json) (log : list Spawn) :
  (forall bookIds options, exists args,
     snd (remove tool bookIds options log)
     = (log ++ [(binOf (removeCalibre options), "remove" :: args)])%list)
  /\ (forall bookIds options, exists args,
        snd (removePermanently tool bookIds options log)
        = (log ++ [(binOf (removeCalibre options), "remove" :: args)])%list)
  /\ (forall options, exists args,
        snd (listBooks tool Json JSON_parse options log)
        = (log ++ [(binOf (listCalibre options), "list" :: args)])%list)
  /\ (forall paths options, exists args,
        snd (add tool paths options log)
        = (log ++ [(binOf (calibre options), "add" :: args)])%list)
  /\ (forall path options, exists args,
        snd (addBook tool path options log)
        = (log ++ [(binOf (calibre options), "add" :: args)])%list)
  /\ (forall searchExpression options,
        snd (removeBySearch searchExpression options log) = log).
Proof.
  split; [|split; [|split; [|split; [|split]]]].
  - intros bookIds options. rewrite remove_run. cbv zeta. cbn [snd].
    destruct (execArgs_command_first "remove" (removeArgs bookIds options)
                (removeCalibre options)) as [rest ->].
    now exists rest.
  - intros bookIds options. unfold removePermanently.
    rewrite remove_run. cbv zeta. cbn [snd].
    destruct (execArgs_command_first "remove"
                (removeArgs bookIds (withPermanent options))
                (removeCalibre (withPermanent options))) as [rest ->].
    now exists rest.
  - intros options. unfold listBooks.
    rewrite execCalibreJson_run. cbv zeta. cbn [snd].
    destruct (execArgs_command_first "list" (listArgs options)
                (withForMachine (withForMachine (listCalibre options))))
      as [rest ->].
    now exists rest.
  - intros paths options. rewrite add_run. cbv zeta. cbn [snd].
    destruct (execArgs_command_first "add" (addArgs paths options)
                (calibre options)) as [rest ->].
    now exists rest.
  - intros path options. rewrite addBook_run, add_run. cbv zeta.
    destruct (execArgs_command_first "add" (addArgs [path] options)
                (calibre options)) as [rest ->].
    exists rest. destruct (exitCode _ =? 0)%Z; reflexivity.
  - reflexivity.
Qed.

(** ** The remove adapter *)

Lemma map_parseInt_Z_to_string (ids : list Z) :
  map parseInt (map Z_to_string ids) = map Some ids.
Proof.
  induction ids as [|z ids IH]; simpl; [reflexivity|].
  now rewrite parseInt_Z_to_string, IH.
Qed.

(** X5: for ids that are safe integers, [remove] launches [remove], the
    library and machine-readable options, the ids in decimal in their
    order, then [--permanent] when it is asked for; the ids read back from
    the arguments are the ids given; and it resolves exactly when the exit
    code is zero, whatever the tool printed. *)
Theorem remove_resolves_iff_exit_zero (tool : Tool) (bookIds : list Z)
  (options : RemoveOptions) (log : list Spawn) :
  forallb isSafeInteger bookIds = true ->
  let argv :=
    (["remove"] ++ libraryPathArgs (removeCalibre options)
     ++ forMachineArgs (removeCalibre options)
     ++ map Z_to_string bookIds
     ++ (if flagSet (permanent options) then ["--permanent"] else []))%list in
  let r := tool log (binOf (removeCalibre options)) argv in
  snd (remove tool bookIds options log)
  = (log ++ [(binOf (removeCalibre options), argv)])%list
  /\ (fst (remove tool bookIds options log) = Resolved tt
      <-> exitCode r = 0%Z)
  /\ map parseInt (map Z_to_string bookIds) = map Some bookIds.
Proof.
  intros _ argv r. rewrite remove_run. cbv zeta.
  assert (E : execArgs "remove" (removeArgs bookIds options)
                (removeCalibre options) = argv).
  { rewrite execArgs_shape. reflexivity. }
  rewrite E. change (tool log (binOf (removeCalibre options)) argv) with r.
  cbn [fst snd]. split; [reflexivity|]. split.
  - destruct (exitCode r =? 0)%Z eqn:Ex.
    + apply Z.eqb_eq in Ex. tauto.
    + apply Z.eqb_neq in Ex. split; [discriminate|contradiction].
  - apply map_parseInt_Z_to_string.
Qed.

(** X6: [removePermanently] always ends the argument vector with
    [--permanent], whatever the options say about [permanent], and
    [removeBook] passes its single id as the only id. *)
Theorem remove_wrappers (tool : Tool) (log : list Spawn) :
  (forall bookIds options,
     snd (removePermanently tool bookIds options log)
     = (log ++ [(binOf (removeCalibre options),
                 ["remove"] ++ libraryPathArgs (removeCalibre options)
                 ++ forMachineArgs (removeCalibre options)
                 ++ map Z_to_string bookIds ++ ["--permanent"])])%list)
  /\ (forall bookId options,
        snd (removeBook tool bookId options log)
        = (log ++ [(binOf (removeCalibre options),
                    ["remove"] ++ libraryPathArgs (removeCalibre options)
                    ++ forMachineArgs (removeCalibre options)
                    ++ [Z_to_string bookId]
                    ++ (if flagSet (permanent options)
                        then ["--permanent"] else []))])%list).
Proof.
  split.
  - intros bookIds options. unfold removePermanently.
    rewrite remove_run. cbv zeta. cbn [snd].
    rewrite execArgs_shape. reflexivity.
  - intros bookId options. unfold removeBook.
    rewrite remove_run. cbv zeta. cbn [snd].
    rewrite execArgs_shape. reflexivity.
Qed.

Lemma remove_resolves_iff_exit_zero_witness :
  fst (remove (constTool (exitsWith 0 "anything" "No book with id: 7"))
         [7; 8]%Z {| removeCalibre := noOptions; permanent := None |} [])
  = Resolved tt.
Proof.
  apply (proj2 (proj1 (proj2 (remove_resolves_iff_exit_zero
                                (constTool
                                   (exitsWith 0 "anything" "No book with id: 7"))
                                [7; 8]%Z
                                {| removeCalibre := noOptions;
                                   permanent := None |} [] eq_refl)))).
  reflexivity.
Defined.

(** ** The add adapter and its wrappers *)

Lemma addArgs_paths_last (paths : list string) (options : AddOptions) :
  addArgs paths options = (addArgs [] options ++ paths)%list.
Proof. unfold addArgs. now rewrite !app_nil_r, <- !app_assoc. Qed.

(** X7: [addBook] resolves with the first id of the confirmation line when
    that id is a safe integer, with null when a successful run prints no
    confirmation line, and, in streaming mode, with null whenever the
    process succeeds. *)
Theorem addBook_result (tool : Tool) (path : string) (options : AddOptions)
  (log : list Spawn) :
  let r := tool log (binOf (calibre options))
             (execArgs "add" (addArgs [path] options) (calibre options)) in
  exitCode r = 0%Z ->
  (flagSet (stream (calibre options)) = true ->
   fst (addBook tool path options log) = Resolved None)
  /\ (flagSet (stream (calibre options)) = false ->
      forall id ids tail,
        isSafeInteger id = true ->
        lineEnds tail = true ->
        stdout r = "Added book ids: " ++ idsLine (id :: ids) ++ tail ->
        fst (addBook tool path options log) = Resolved (Some id))
  /\ (flagSet (stream (calibre options)) = false ->
      ~ confirmationLine (stdout r) ->
      fst (addBook tool path options log) = Resolved None).
Proof.
  intros r Hexit. rewrite addBook_run, add_run. cbv zeta.
  change (tool log (binOf (calibre options))
            (execArgs "add" (addArgs [path] options) (calibre options))) with r.
  rewrite Hexit. cbn [Z.eqb fst]. split; [|split].
  - intros ->. reflexivity.
  - intros -> id ids tail _ Htail ->.
    rewrite (search_addedMatchAt_idsLine (id :: ids) tail) by easy.
    now rewrite parseIds_idsLine.
  - intros -> Hno. apply search_addedMatchAt_None in Hno.
    now rewrite Hno.
Qed.

Lemma addBook_result_witness :
  fst (addBook (constTool (exitsWith 0 "Added book ids: 41, 42" EmptyString))
         "book.epub" noAddOptions [])
  = Resolved (Some 41%Z).
Proof.
  apply (proj1 (proj2 (addBook_result
                         (constTool
                            (exitsWith 0 "Added book ids: 41, 42" EmptyString))
                         "book.epub" noAddOptions [] eq_refl))
           eq_refl 41%Z [42%Z] EmptyString); reflexivity.
Defined.

Lemma addArgs_withEmpty (options : AddOptions) (t : string) :
  title options = Some t -> t <> EmptyString ->
  exists front middle back,
    addArgs [] (withEmpty options)
    = (front ++ ["--empty"] ++ middle ++ ["--title"; t] ++ back)%list.
Proof.
  intros Ht Hne. unfold addArgs. cbn [withEmpty empty title flagSet].
  rewrite Ht. destruct t as [|c t]; [congruence|]. cbn [truthy].
  match goal with
  | |- exists front middle back,
         (?a1 ++ ?a2 ++ ?a3 ++ ?a4 ++ _ ++ ?a6 ++ _ ++ ?rest)%list = _ =>
      exists (a1 ++ a2 ++ a3 ++ a4)%list, a6, rest
  end.
  now rewrite <- !app_assoc.
Qed.

(** X8: [addEmptyBook] treats an empty title like a missing one: the same
    error and no process.  With a title that is not empty it launches one
    [add] whose arguments contain [--empty], whatever the options say about
    [empty], then the pair [--title <title>], and no path. *)
Theorem addEmptyBook_with_title (tool : Tool) (options : AddOptions)
  (log : list Spawn) :
  (title options = Some EmptyString ->
   addEmptyBook tool options log
   = (Rejected (Error "Title is required for an empty book"), log))
  /\ (forall t,
        title options = Some t -> t <> EmptyString ->
        exists front middle back,
          snd (addEmptyBook tool options log)
          = (log ++ [(binOf (calibre options),
                      ["add"] ++ libraryPathArgs (calibre options)
                      ++ forMachineArgs (calibre options)
                      ++ front ++ ["--empty"] ++ middle
                      ++ ["--title"; t] ++ back)])%list).
Proof.
  split.
  - intros Ht. unfold addEmptyBook, textSet. rewrite Ht. reflexivity.
  - intros t Ht Hne.
    destruct (addArgs_withEmpty options t Ht Hne)
      as (front & middle & back & E).
    exists front, middle, back.
    unfold addEmptyBook, textSet. rewrite Ht.
    destruct t as [|c t]; [congruence|]. cbn [truthy negb].
    unfold await. rewrite add_run. cbv zeta.
    rewrite execArgs_shape, E.
    change (calibre (withEmpty options)) with (calibre options).
    destruct (exitCode _ =? 0)%Z; cbn [snd];
      rewrite <- ?app_assoc; reflexivity.
Qed.

Lemma addEmptyBook_with_title_witness :
  addEmptyBook (constTool (exitsWith 0 "Added book ids: 1" EmptyString))
    {| calibre := noOptions; allowDuplicates := None; automerge := None;
       empty := None; title := Some EmptyString; author := Some "Nobody";
       isbn := None; identifiers := None; tags := None; series := None;
       seriesIndex := None; languages := None; recursive := None;
       oneBookPerDirectory := None |} []
  = (Rejected (Error "Title is required for an empty book"), []).
Proof.
  apply (proj1 (addEmptyBook_with_title
                  (constTool (exitsWith 0 "Added book ids: 1" EmptyString))
                  _ [])).
  reflexivity.
Defined.

(** X15: [add] puts the paths after all the options, and [addDirectory]
    launches [add] with [--recurse] among the options, whatever the options
    say about [recursive], and the directory as the last argument. *)
Theorem addDirectory_recurses (tool : Tool) (directoryPath : string)
  (paths : list string) (options : AddOptions) (log : list Spawn) :
  addArgs paths options = (addArgs [] options ++ paths)%list
  /\ exists front,
       snd (addDirectory tool directoryPath options log)
       = (log ++ [(binOf (calibre options),
                   "add" :: front ++ [directoryPath])])%list
       /\ In "--recurse" front.
Proof.
  split; [apply addArgs_paths_last|].
  exists (libraryPathArgs (calibre options)
          ++ forMachineArgs (calibre options)
          ++ addArgs [] (withRecursive options))%list.
  split.
  - unfold addDirectory. rewrite add_run. cbv zeta.
    rewrite execArgs_shape, (addArgs_paths_last [directoryPath]).
    change (calibre (withRecursive options)) with (calibre options).
    destruct (exitCode _ =? 0)%Z; cbn [snd];
      now rewrite <- !app_assoc.
  - rewrite !in_app_iff. right. right.
    unfold addArgs. cbn [withRecursive recursive flagSet].
    rewrite !in_app_iff. right. right. left. now left.
Qed.

(** ** The list adapter *)

(** X14: [list] always asks for machine-readable output: what the options
    say about [forMachine] changes nothing of what it launches and returns. *)
Theorem listBooks_ignores_forMachine (tool : Tool) (Json : Type)
  (JSON_parse : string -> option Json) (options : ListOptions)
  (b : option bool) (log : list Spawn) :
  listBooks tool Json JSON_parse (setListForMachine b options) log
  = listBooks tool Json JSON_parse options log
  /\ exists front,
       snd (listBooks tool Json JSON_parse options log)
       = (log ++ [(binOf (listCalibre options),
                   front ++ ["--for-machine"] ++ listArgs options)])%list.
Proof.
  split; [reflexivity|].
  exists (["list"] ++ libraryPathArgs (listCalibre options))%list.
  unfold listBooks. rewrite execCalibreJson_run. cbv zeta. cbn [snd].
  rewrite execArgs_shape. now rewrite <- !app_assoc.
Qed.

(** ** The error classes *)

Ltac string_assoc :=
  repeat first [rewrite !append_assoc | progress cbn [append]]; reflexivity.

(** X12: the string form of a [CalibreError], and of the two classes that
    extend it, is the name of the class and the message, then the command,
    then the raw output: both the command and the output can be read in
    it, and it ends with the output. *)
Theorem CalibreError_toString_keeps_output (e : JsError)
  (command stderr : string) :
  isCalibreError e = true ->
  errorCommand e = Some command -> errorStderr e = Some stderr ->
  exists text head,
    CalibreError_toString e = Some text
    /\ text = head ++ "Output: " ++ stderr
    /\ includes text command = true
    /\ includes text stderr = true
    /\ startsWith (errorName e ++ ": " ++ errorMessage e) text = true.
Proof.
  intros Hc Hcmd Herr. unfold CalibreError_toString.
  rewrite Hcmd, Herr, Hc.
  eexists.
  exists (errorName e ++ ": " ++ errorMessage e
          ++ String "010" ("Command: " ++ command ++ String "010" EmptyString)).
  split; [reflexivity|]. split; [|split; [|split]].
  - string_assoc.
  - replace (errorName e ++ ": " ++ errorMessage e
             ++ String "010" ("Command: " ++ command
             ++ String "010" ("Output: " ++ stderr)))
      with ((errorName e ++ ": " ++ errorMessage e
             ++ String "010" "Command: ")
            ++ command ++ String "010" ("Output: " ++ stderr))
      by string_assoc.
    apply includes_app.
  - replace (errorName e ++ ": " ++ errorMessage e
             ++ String "010" ("Command: " ++ command
             ++ String "010" ("Output: " ++ stderr)))
      with ((errorName e ++ ": " ++ errorMessage e
             ++ String "010" ("Command: " ++ command
             ++ String "010" "Output: "))
            ++ stderr ++ EmptyString)
      by (rewrite append_empty_r; string_assoc).
    apply includes_app.
  - replace (errorName e ++ ": " ++ errorMessage e
             ++ String "010" ("Command: " ++ command
             ++ String "010" ("Output: " ++ stderr)))
      with ((errorName e ++ ": " ++ errorMessage e)
            ++ String "010" ("Command: " ++ command
            ++ String "010" ("Output: " ++ stderr)))
      by string_assoc.
    apply startsWith_app.
Qed.

Lemma CalibreError_toString_keeps_output_witness :
  exists text head,
    CalibreError_toString
      (BookNotFoundError (IdNumber 7) "remove" "No book with id: 7")
    = Some text
    /\ text = head ++ "Output: " ++ "No book with id: 7"
    /\ includes text "remove" = true
    /\ includes text "No book with id: 7" = true
    /\ startsWith "BookNotFoundError: Book with ID 7 not found" text = true.
Proof.
  apply (CalibreError_toString_keeps_output
           (BookNotFoundError (IdNumber 7) "remove" "No book with id: 7")
           "remove" "No book with id: 7"); reflexivity.
Defined.

(** X9: the classifier matches on a lower-cased copy but returns the
    captured text and the command as they were given, except in the
    ToolMissing case, whose error is the same for every input and carries
    neither. *)
Theorem determineErrorType_keeps_raw_text (error : JsError)
  (command stderr : string) :
  let e := determineErrorType error command stderr in
  (errorCase e <> ToolMissing ->
   errorStderr e = Some stderr /\ errorCommand e = Some command)
  /\ (errorCase e = ToolMissing ->
      e = CalibreNotFoundError "calibredb executable not found"
      /\ errorStderr e = None /\ errorCommand e = None).
Proof.
  intros e. subst e. unfold determineErrorType.
  destruct (mentionsBook _); [split; [now split|discriminate]|].
  destruct (mentionsLibrary _); [split; [now split|discriminate]|].
  destruct (mentionsExecutable _).
  - split; [intros H; now elim H|now repeat split].
  - split; [now split|discriminate].
Qed.

Lemma determineErrorType_keeps_raw_text_witness :
  errorStderr
    (determineErrorType (Error "exit 1") "list" "Library NOT found: /Tmp/X")
  = Some "Library NOT found: /Tmp/X"
  /\ errorCommand
       (determineErrorType (Error "exit 1") "list" "Library NOT found: /Tmp/X")
     = Some "list".
Proof.
  apply (proj1 (determineErrorType_keeps_raw_text (Error "exit 1") "list"
                  "Library NOT found: /Tmp/X")).
  discriminate.
Defined.

(** ** The details the classifier extracts *)

Lemma search_Some {A : Type} (matchAt : string -> option A) (s : string)
  (r : A) :
  search matchAt s = Some r ->
  exists pre rest, s = pre ++ rest /\ matchAt rest = Some r.
Proof.
  induction s as [|c s IH]; simpl.
  - destruct (matchAt EmptyString) eqn:E; [|discriminate].
    intros H. exists EmptyString, EmptyString. split; [reflexivity|congruence].
  - destruct (matchAt (String c s)) eqn:E.
    + intros H. exists EmptyString, (String c s).
      split; [reflexivity|congruence].
    + intros H. destruct (IH H) as (pre & rest & -> & Hr).
      now exists (String c pre), rest.
Qed.

Lemma search_skip {A : Type} (matchAt : string -> option A) (s1 s2 : string) :
  (forall pre rest,
     s1 = pre ++ rest -> rest <> EmptyString ->
     matchAt (rest ++ s2) = None) ->
  search matchAt (s1 ++ s2) = search matchAt s2.
Proof.
  induction s1 as [|c s1 IH]; intros H; [reflexivity|].
  assert (H0 : matchAt (String c s1 ++ s2) = None)
    by (apply (H EmptyString (String c s1) eq_refl); discriminate).
  cbn [append] in H0. cbn [append search]. rewrite H0.
  apply IH. intros pre rest -> Hne.
  now apply (H (String c pre) rest).
Qed.

Lemma plusRun_takeWhile (p : ascii -> bool) (s r : string) :
  plusRun p s = Some r -> r = takeWhile p s /\ r <> EmptyString.
Proof.
  unfold plusRun. destruct (takeWhile p s); [discriminate|].
  intros H. injection H as <-. split; [reflexivity|discriminate].
Qed.

Lemma allChars_takeWhile_self (p : ascii -> bool) (s : string) :
  allChars p (takeWhile p s) = true.
Proof.
  induction s as [|c s IH]; simpl; [reflexivity|].
  destruct (p c) eqn:E; simpl; [now rewrite E|reflexivity].
Qed.

Lemma allChars_takeWhile (p q : ascii -> bool) (s : string) :
  allChars p s = true -> allChars p (takeWhile q s) = true.
Proof.
  induction s as [|c s IH]; simpl; [reflexivity|].
  intros H. apply andb_true_iff in H as [Hc Hs].
  destruct (q c); simpl; [now rewrite Hc, IH|reflexivity].
Qed.

Lemma allChars_suffix (p : ascii -> bool) (a b : string) :
  allChars p (a ++ b) = true -> allChars p b = true.
Proof.
  rewrite allChars_app. intros H. now apply andb_true_iff in H as [_ H].
Qed.

Lemma toLowerCase_lowerFixed (s : string) :
  allChars lowerFixed (toLowerCase s) = true.
Proof.
  induction s as [|c s IH]; simpl; [reflexivity|].
  unfold lowerFixed at 1. now rewrite lowerChar_idem, Ascii.eqb_refl.
Qed.

Lemma lowerFixed_toLowerCase (s : string) :
  allChars lowerFixed s = true -> toLowerCase s = s.
Proof.
  induction s as [|c s IH]; simpl; [reflexivity|].
  intros H. apply andb_true_iff in H as [Hc Hs].
  apply Ascii.eqb_eq in Hc. now rewrite Hc, IH.
Qed.

Lemma search_Some_first {A : Type} (matchAt : string -> option A)
  (s : string) (r : A) :
  search matchAt s = Some r ->
  exists pre rest,
    s = pre ++ rest /\ matchAt rest = Some r
    /\ (forall a b,
          pre = a ++ b -> b <> EmptyString -> matchAt (b ++ rest) = None).
Proof.
  induction s as [|c s IH]; simpl.
  - destruct (matchAt EmptyString) eqn:E; [|discriminate].
    intros H. exists EmptyString, EmptyString.
    split; [reflexivity|]. split; [congruence|].
    intros [|x pa] [|y pb] Hs Hne; simpl in Hs; congruence.
  - destruct (matchAt (String c s)) eqn:E.
    + intros H. exists EmptyString, (String c s).
      split; [reflexivity|]. split; [congruence|].
      intros [|x pa] [|y pb] Hs Hne; simpl in Hs; congruence.
    + intros H. destruct (IH H) as (pre & rest & -> & Hr & Hfirst).
      exists (String c pre), rest.
      split; [reflexivity|]. split; [exact Hr|].
      intros [|x pa] pb Hs Hne; simpl in Hs.
      * subst pb. exact E.
      * injection Hs as _ Hs. now apply (Hfirst pa pb).
Qed.

Lemma takeWhile_split (p : ascii -> bool) (s : string) :
  exists post,
    s = takeWhile p s ++ post
    /\ match post with
       | EmptyString => true
       | String c _ => negb (p c)
       end = true.
Proof.
  induction s as [|c s IH]; simpl.
  - now exists EmptyString.
  - destruct (p c) eqn:E.
    + destruct IH as (post & Hs & Hpost).
      exists post. simpl. now rewrite <- Hs.
    + exists (String c s). simpl. now rewrite E.
Qed.

Lemma sepStarToken_run (s tok : string) :
  sepStarToken s = Some tok ->
  exists seps rest,
    s = seps ++ rest /\ allSeparators seps = true
    /\ plusRun (fun x => negb (isSpace x)) rest = Some tok.
Proof.
  induction s as [|c t IH]; simpl; [discriminate|].
  destruct (isSpace c || Ascii.eqb c ":") eqn:Ec.
  - destruct (sepStarToken t) as [tok'|] eqn:Et.
    + intros H. injection H as <-.
      destruct (IH eq_refl) as (seps & rest & -> & Hs & Hr).
      exists (String c seps), rest. simpl. now rewrite Ec, Hs.
    + intros H. now exists EmptyString, (String c t).
  - intros H. now exists EmptyString, (String c t).
Qed.

Lemma pathMatchAt_run (s tok : string) :
  pathMatchAt s = Some tok ->
  exists word seps post,
    s = word ++ seps ++ tok ++ post
    /\ eqIgnoreCase word "path" = true
    /\ seps <> EmptyString /\ allSeparators seps = true
    /\ tok <> EmptyString
    /\ allChars (fun x => negb (isSpace x)) tok = true
    /\ tokenEnds post = true.
Proof.
  unfold pathMatchAt.
  destruct (stripPrefixCI "path" s) as [[|c t]|] eqn:E; try discriminate.
  apply stripPrefixCI_Some in E as (word & -> & Hword).
  destruct (isSpace c || Ascii.eqb c ":") eqn:Ec; [|discriminate].
  intros H.
  destruct (sepStarToken_run _ _ H) as (seps & rest & -> & Hseps & Hr).
  apply plusRun_takeWhile in Hr as [-> Hne].
  destruct (takeWhile_split (fun x => negb (isSpace x)) rest)
    as (post & Hrest & Hpost).
  exists word, (String c seps), post.
  split.
  { rewrite Hrest at 1. reflexivity. }
  split; [exact Hword|]. split; [discriminate|].
  split; [simpl; now rewrite Ec, Hseps|].
  split; [exact Hne|].
  split; [apply allChars_takeWhile_self|].
  destruct post as [|x post]; [reflexivity|].
  cbn [tokenEnds]. now rewrite negb_involutive in Hpost.
Qed.

(** X10: the path carried by a [LibraryNotFoundError] of the classifier is
    read from the lower-cased text.  Either no [path] followed by
    separators and a token is there, and the path is "unknown"; or the
    lower-cased text reads: something, then [path], then colons and white
    space, then the path, a token without white space that ends with the
    text or before white space, and the pattern matches at no earlier
    place.  So the path is in lower case, whatever the case in the text;
    the command and the text are the ones given. *)
Theorem libraryPath_detail_lower_case (error : JsError)
  (command stderr path c s : string) :
  determineErrorType error command stderr = LibraryNotFoundError path c s ->
  c = command /\ s = stderr
  /\ toLowerCase path = path
  /\ ((noPathDetail stderr /\ path = "unknown")
      \/ exists pre word seps post,
           toLowerCase stderr = pre ++ word ++ seps ++ path ++ post
           /\ eqIgnoreCase word "path" = true
           /\ seps <> EmptyString /\ allSeparators seps = true
           /\ path <> EmptyString
           /\ allChars (fun x => negb (isSpace x)) path = true
           /\ tokenEnds post = true
           /\ (forall a b,
                 pre = a ++ b -> b <> EmptyString ->
                 pathMatchAt (b ++ word ++ seps ++ path ++ post) = None)).
Proof.
  unfold determineErrorType.
  destruct (mentionsBook _); [discriminate|].
  destruct (mentionsLibrary _);
    [|destruct (mentionsExecutable _); discriminate].
  destruct (search pathMatchAt (toLowerCase stderr)) as [tok|] eqn:E.
  - intros H. injection H as <- <- <-.
    destruct (search_Some_first _ _ _ E) as (pre & rest & Hs & Hm & Hfirst).
    destruct (pathMatchAt_run _ _ Hm)
      as (word & seps & post & -> & Hword & Hne & Hseps & Htok & Hsp & Hend).
    split; [reflexivity|]. split; [reflexivity|]. split.
    + apply lowerFixed_toLowerCase.
      assert (Hall : allChars lowerFixed (toLowerCase stderr) = true)
        by apply toLowerCase_lowerFixed.
      rewrite Hs, !allChars_app in Hall.
      repeat (apply andb_true_iff in Hall as [? Hall]).
      repeat match goal with
             | H : _ && _ = true |- _ => apply andb_true_iff in H as [? ?]
             end.
      assumption.
    + right. exists pre, word, seps, post. now repeat split.
  - intros H. injection H as <- <- <-.
    split; [reflexivity|]. split; [reflexivity|]. split; [reflexivity|].
    left. split; [|reflexivity]. now apply search_pathMatchAt_None.
Qed.

Lemma libraryPath_detail_lower_case_witness :
  determineErrorType (Error "exit 1") "list"
    "Cannot find library at PATH: /Users/Me/Books (missing)"
  = LibraryNotFoundError "/users/me/books" "list"
      "Cannot find library at PATH: /Users/Me/Books (missing)"
  /\ toLowerCase "/users/me/books" = "/users/me/books"
  /\ ~ noPathDetail "Cannot find library at PATH: /Users/Me/Books (missing)".
Proof.
  assert (H : determineErrorType (Error "exit 1") "list"
                "Cannot find library at PATH: /Users/Me/Books (missing)"
              = LibraryNotFoundError "/users/me/books" "list"
                  "Cannot find library at PATH: /Users/Me/Books (missing)")
    by reflexivity.
  split; [exact H|].
  destruct (libraryPath_detail_lower_case _ _ _ _ _ _ H)
    as (_ & _ & Hlower & Hread).
  split; [exact Hlower|].
  intros Hno. apply search_pathMatchAt_None in Hno. discriminate Hno.
Defined.

Lemma idMatchAt_straddle (rest more : string) :
  rest <> EmptyString -> idMatchAt rest = None ->
  idMatchAt (rest ++ "id: " ++ more) = None.
Proof.
  intros Hne Hrest. apply idMatchAt_None. intros d post H.
  destruct rest as [|c1 [|c2 [|c3 [|c4 [|c5 rest]]]]];
    [congruence|..]; cbn in H; injection H; intros; subst;
    try discriminate; try reflexivity.
  now apply (proj1 (idMatchAt_None _) Hrest d rest).
Qed.

Lemma numberEnds_toLowerCase (s : string) :
  numberEnds (toLowerCase s) = numberEnds s.
Proof. destruct s as [|c s]; simpl; [reflexivity|]. now rewrite isDigit_lowerChar. Qed.

Lemma toLowerCase_digits (s : string) :
  allChars isDigit s = true -> toLowerCase s = s.
Proof.
  intros H. apply lowerFixed_toLowerCase.
  apply (allChars_impl isDigit); [|exact H].
  intros c Hc. apply digit_plain in Hc as (_ & _ & _ & Hc).
  unfold lowerFixed. now rewrite Hc, Ascii.eqb_refl.
Qed.

(** X11: when the text has a book-not-found phrase and its first [id: ]
    that a digit follows, in any case, is followed by the decimal numeral
    of a safe integer [n], the error of the classifier carries the id
    [n]. *)
Theorem bookId_read_from_text (error : JsError)
  (command pre word tail : string) (n : N) :
  let stderr := pre ++ word ++ N_to_string n ++ tail in
  isSafeInteger (Z.of_N n) = true ->
  bookPhrase stderr ->
  eqIgnoreCase word "id: " = true ->
  noIdDetail pre ->
  numberEnds tail = true ->
  determineErrorType error command stderr
  = BookNotFoundError (IdNumber n) command stderr.
Proof.
  intros stderr _ Hbook Hword Hpre Htail.
  apply mentionsBook_spec in Hbook.
  unfold determineErrorType. rewrite Hbook.
  assert (El : toLowerCase stderr
               = toLowerCase pre
                 ++ "id: " ++ N_to_string n ++ toLowerCase tail).
  { unfold stderr. rewrite !toLowerCase_app.
    rewrite (eqIgnoreCase_toLowerCase word "id: " eq_refl Hword).
    now rewrite (toLowerCase_digits _ (N_to_string_digits n)). }
  rewrite El.
  rewrite search_skip.
  - assert (Em : idMatchAt ("id: " ++ N_to_string n ++ toLowerCase tail)
                 = Some (N_to_string n)).
    { unfold idMatchAt.
      assert (Es : stripPrefix "id: "
                     ("id: " ++ N_to_string n ++ toLowerCase tail)
                   = Some (N_to_string n ++ toLowerCase tail))
        by now apply stripPrefix_Some.
      rewrite Es.
      apply plusRun_all.
      - apply N_to_string_digits.
      - apply N_to_string_nonempty.
      - fold (numberEnds (toLowerCase tail)).
        now rewrite numberEnds_toLowerCase. }
    rewrite (search_here _ _ _ Em), digitsValue_N_to_string. reflexivity.
  - intros a rest Hs Hne. apply idMatchAt_straddle; [exact Hne|].
    apply search_idMatchAt_None in Hpre.
    exact (proj1 (search_None _ _) Hpre a rest Hs).
Qed.

Lemma bookId_read_from_text_witness :
  determineErrorType (Error "exit 1") "remove"
    ("Error: No book with " ++ "ID: " ++ N_to_string 1234 ++ " in library")
  = BookNotFoundError (IdNumber 1234) "remove"
      ("Error: No book with " ++ "ID: " ++ N_to_string 1234 ++ " in library").
Proof.
  apply (bookId_read_from_text (Error "exit 1") "remove"
           "Error: No book with " "ID: " " in library" 1234).
  - reflexivity.
  - left. exists "Error: ", "No book with ID", ": 1234 in library".
    split; reflexivity.
  - reflexivity.
  - apply search_idMatchAt_None. reflexivity.
  - reflexivity.
Defined.

(** ** Failures of the public operations, classified or not *)

Lemma listBooks_run (tool : Tool) (Json : Type)
  (JSON_parse : string -> option Json) (options : ListOptions)
  (log : list Spawn) :
  listBooks tool Json JSON_parse options log
  = let argv := execArgs "list" (listArgs options)
                  (withForMachine (listCalibre options)) in
    let r := tool log (binOf (listCalibre options)) argv in
    (if (exitCode r =? 0)%Z then
       match JSON_parse (stdout r) with
       | Some v => Resolved v
       | None =>
           Rejected
             (CalibreError "Failed to parse JSON output from calibredb list"
                "list" (stdout r))
       end
     else Rejected
            (CalibreError
               ("Failed to execute calibredb list: " ++ message r) "list"
               (orElse (stderr r)
                  (orElse (stdout r) "No error output available"))),
     (log ++ [(binOf (listCalibre options), argv)])%list).
Proof. unfold listBooks. now rewrite execCalibreJson_run. Qed.

Lemma CalibreError_classified (message command text : string) :
  classified (CalibreError message command text).
Proof. unfold classified. simpl. tauto. Qed.

Lemma ExecaError_unclassified (message err out : string) :
  ~ classified (ExecaError message err out).
Proof. unfold classified. simpl. intuition discriminate. Qed.

(** C1, amended: on the non-streaming paths a failure is always one of the
    classified errors.  When the process exits with a non-zero code,
    [remove], [list], a non-streaming [add], [execCalibre] and
    [execCalibreJson] reject, and so do [list] and [execCalibreJson] when
    the output is not JSON; whatever they reject with is a classified
    error.  In streaming mode, on a non-zero exit, [add] rejects with the
    error of [execa] itself, which is not classified. *)
Theorem public_operation_failures (tool : Tool) (Json : Type)
  (JSON_parse : string -> option Json) (log : list Spawn) :
  (forall bookIds options,
     exitCode (tool log (binOf (removeCalibre options))
                 (execArgs "remove" (removeArgs bookIds options)
                    (removeCalibre options))) <> 0%Z ->
     exists e, fst (remove tool bookIds options log) = Rejected e)
  /\ (forall options,
        let r := tool log (binOf (listCalibre options))
                   (execArgs "list" (listArgs options)
                      (withForMachine (listCalibre options))) in
        exitCode r <> 0%Z \/ JSON_parse (stdout r) = None ->
        exists e,
          fst (listBooks tool Json JSON_parse options log) = Rejected e)
  /\ (forall paths options,
        let r := tool log (binOf (calibre options))
                   (execArgs "add" (addArgs paths options)
                      (calibre options)) in
        exitCode r <> 0%Z ->
        (exists e, fst (add tool paths options log) = Rejected e)
        /\ (flagSet (stream (calibre options)) = true ->
            fst (add tool paths options log)
            = Rejected (ExecaError (message r) (stderr r) (stdout r))
            /\ ~ classified (ExecaError (message r) (stderr r) (stdout r))))
  /\ (forall command args options,
        exitCode (tool log (binOf options)
                    (execArgs command args options)) <> 0%Z ->
        exists e, fst (execCalibre tool command args options log) = Rejected e)
  /\ (forall command args options,
        let r := tool log (binOf options)
                   (execArgs command args (withForMachine options)) in
        exitCode r <> 0%Z \/ JSON_parse (stdout r) = None ->
        exists e,
          fst (execCalibreJson tool Json JSON_parse command args options log)
          = Rejected e)
  /\ (forall e,
        (exists bookIds options,
           fst (remove tool bookIds options log) = Rejected e)
        \/ (exists options,
              fst (listBooks tool Json JSON_parse options log) = Rejected e)
        \/ (exists paths options,
              flagSet (stream (calibre options)) = false
              /\ fst (add tool paths options log) = Rejected e)
        \/ (exists command args options,
              fst (execCalibre tool command args options log) = Rejected e)
        \/ (exists command args options,
              fst (execCalibreJson tool Json JSON_parse command args options
                     log) = Rejected e) ->
        classified e).
Proof.
  split; [|split; [|split; [|split; [|split]]]].
  - intros bookIds options Hexit. rewrite remove_run. cbv zeta.
    apply Z.eqb_neq in Hexit. rewrite Hexit. eexists. reflexivity.
  - intros options r H. rewrite listBooks_run. cbv zeta.
    change (tool log (binOf (listCalibre options))
              (execArgs "list" (listArgs options)
                 (withForMachine (listCalibre options)))) with r.
    destruct (exitCode r =? 0)%Z eqn:E; [|eexists; reflexivity].
    apply Z.eqb_eq in E. destruct H as [H|H]; [congruence|].
    rewrite H. eexists. reflexivity.
  - intros paths options r Hexit. rewrite add_run. cbv zeta.
    change (tool log (binOf (calibre options))
              (execArgs "add" (addArgs paths options) (calibre options)))
      with r.
    apply Z.eqb_neq in Hexit. rewrite Hexit. cbn [fst]. split.
    + eexists. reflexivity.
    + intros ->. split; [reflexivity|apply ExecaError_unclassified].
  - intros command args options Hexit. rewrite execCalibre_run. cbv zeta.
    apply Z.eqb_neq in Hexit. rewrite Hexit. eexists. reflexivity.
  - intros command args options r H. rewrite execCalibreJson_run. cbv zeta.
    change (tool log (binOf options)
              (execArgs command args (withForMachine options))) with r.
    destruct (exitCode r =? 0)%Z eqn:E; [|eexists; reflexivity].
    apply Z.eqb_eq in E. destruct H as [H|H]; [congruence|].
    rewrite H. eexists. reflexivity.
  - intros e [H|[H|[H|[H|H]]]].
    + destruct H as (bookIds & options & H).
      rewrite remove_run in H. cbv zeta in H. cbn [fst] in H.
      destruct (exitCode _ =? 0)%Z; [discriminate|].
      injection H as <-. apply CalibreError_classified.
    + destruct H as (options & H).
      rewrite listBooks_run in H. cbv zeta in H. cbn [fst] in H.
      destruct (exitCode _ =? 0)%Z.
      * destruct (JSON_parse _); [discriminate|].
        injection H as <-. apply CalibreError_classified.
      * injection H as <-. apply CalibreError_classified.
    + destruct H as (paths & options & Hstream & H).
      rewrite add_run in H. cbv zeta in H. cbn [fst] in H.
      rewrite Hstream in H.
      destruct (exitCode _ =? 0)%Z; [discriminate|].
      injection H as <-. apply CalibreError_classified.
    + destruct H as (command & args & options & H).
      rewrite execCalibre_run in H. cbv zeta in H. cbn [fst] in H.
      destruct (exitCode _ =? 0)%Z; [discriminate|].
      injection H as <-. apply CalibreError_classified.
    + destruct H as (command & args & options & H).
      rewrite execCalibreJson_run in H. cbv zeta in H. cbn [fst] in H.
      destruct (exitCode _ =? 0)%Z.
      * destruct (JSON_parse _); [discriminate|].
        injection H as <-. apply CalibreError_classified.
      * injection H as <-. apply CalibreError_classified.
Qed.

Lemma public_operation_failures_witness :
  (exists e,
     fst (remove (constTool (exitsWith 1 EmptyString "No book with id: 7"))
            [7%Z] {| removeCalibre := noOptions; permanent := Some true |} [])
     = Rejected e)
  /\ classified
       (CalibreError
          "Failed to execute calibredb remove: Command failed with exit code 1"
          "remove" "No book with id: 7").
Proof.
  pose proof (public_operation_failures
                (constTool (exitsWith 1 EmptyString "No book with id: 7"))
                unit (fun _ => Some tt) []) as (Hremove & _ & _ & _ & _ & Hall).
  split.
  - apply Hremove. simpl. lia.
  - apply Hall. left.
    exists [7%Z], {| removeCalibre := noOptions; permanent := Some true |}.
    reflexivity.
Defined.
